(** * irmago: session log entries, atomic file save, session-info decoding

    A shallow embedding of
    - [internal/fs/fs.go]        (package [fs]: [PathExists], [SaveFile], ...),
    - [protocol/messages.go]     (package [protocol]: [SessionInfo.UnmarshalJSON]),
    - the log-entry file of package [irmaclient] ([LogEntry], [SessionRequest],
      [createLogEntry], [GetDisclosedCredentials], ...),
    followed by the properties of these functions.

    Conventions of the embedding.
    - A Go [string] is a [string]; a [[]byte] is a [list byte]; a nil slice and
      an empty slice are both [[]] (they have the same [len], which is all the
      code and [omitempty] look at).
    - A Go [error] is an [option error]: [None] is [nil].
    - A Go pointer to a struct that the code only reads is an [option]
      ([None] is nil).  The [request] field of a log entry is an interface
      value holding a pointer that is shared and written through, so it is a
      location into an explicit heap.
    - A function that may panic returns an [Outcome]; several Go results are
      a tuple inside [Return]. *)

From Stdlib Require Import ZArith Ascii String.
From Stdlib.Strings Require Import Byte.
From Stdlib.Floats Require Import SpecFloat.
From stdpp Require Import gmap strings list fin_maps.

Local Open Scope string_scope.

(** ** Go results *)

Definition error := string.

Inductive Outcome (A : Type) : Type :=
| Return (a : A)
| Panic (reason : string).
Arguments Return {A} a.
Arguments Panic {A} reason.

Abbreviation bytes := (list byte).

#[export] Instance byte_eq_dec : EqDecision byte := Byte.byte_eq_dec.

(** [[]byte(s)] and [string(b)]. *)
Definition bytes_of_string (s : string) : bytes := list_byte_of_string s.
Definition string_of_bytes (b : bytes) : string := string_of_list_byte b.

(** ** Package fs *)

Module fs.

(** A regular file: its content and its permission bits. Directories are not
    represented; an operation that needs a missing directory fails through
    the oracle below. *)
Record file := File { content : bytes; mode : N }.

Abbreviation files := (gmap string file).

Definition ReadFile (name : string) (fs : files) : option bytes :=
  content <$> fs !! name.

(** How one call of [ioutil.WriteFile] ends: [os.OpenFile] fails and nothing
    is touched; or the file has been created or truncated and [Write] or
    [Close] fails after [n] bytes reached it; or everything is written. *)
Inductive WriteOutcome :=
| WriteOk
| WriteFailedOpen (e : error)
| WriteFailedAfter (n : nat) (e : error).

(** What the operating system does during one call of [SaveFile]: the bytes
    of the random source and whether reading them fails, how the write ends,
    whether the rename is refused. *)
Record Oracle := {
  rand_stream : nat -> byte;
  rand_err : option error;
  write_outcome : WriteOutcome;
  rename_err : option error
}.

(** [os.Stat] as far as [PathExists] looks at it. *)
Inductive StatResult :=
| StatOk
| StatNotExist (e : error)
| StatOther (e : error).

(** [rand.Read(b)]: fills [b] or fails. *)
Definition rand_Read (o : Oracle) (b : bytes) : bytes * option error :=
  match rand_err o with
  | Some e => (b, Some e)
  | None => (rand_stream o <$> seq 0 (length b), None)
  end.

Definition hexdigit (n : N) : ascii :=
  match n with
  | 0 => "0" | 1 => "1" | 2 => "2" | 3 => "3" | 4 => "4" | 5 => "5"
  | 6 => "6" | 7 => "7" | 8 => "8" | 9 => "9" | 10 => "a" | 11 => "b"
  | 12 => "c" | 13 => "d" | 14 => "e" | _ => "f"
  end%N%char.

(** [hex.EncodeToString]: two lower-case digits per byte, high nibble first. *)
Fixpoint hex_EncodeToString (src : bytes) : string :=
  match src with
  | [] => ""
  | b :: rest =>
      let v := Byte.to_N b in
      String (hexdigit (N.shiftr v 4))
        (String (hexdigit (N.land v 15)) (hex_EncodeToString rest))
  end.

(** [ioutil.WriteFile(filename, data, perm)]: open with
    [O_WRONLY|O_CREATE|O_TRUNC] (the permission bits are used only when the
    file is created), write, close. *)
Definition written (filename : string) (data : bytes) (perm : N) (fs : files) : files :=
  match fs !! filename with
  | Some f => <[filename := File data (mode f)]> fs
  | None => <[filename := File data perm]> fs
  end.

Definition ioutil_WriteFile (o : Oracle) (filename : string) (data : bytes)
    (perm : N) (fs : files) : files * option error :=
  match write_outcome o with
  | WriteOk => (written filename data perm fs, None)
  | WriteFailedOpen e => (fs, Some e)
  | WriteFailedAfter n e => (written filename (take n data) perm fs, Some e)
  end.

(** [os.Rename(oldpath, newpath)]: all or nothing. *)
Definition os_Rename (o : Oracle) (oldpath newpath : string) (fs : files)
  : files * option error :=
  match rename_err o with
  | Some e => (fs, Some e)
  | None =>
      match fs !! oldpath with
      | Some f => (<[newpath := f]> (delete oldpath fs), None)
      | None => (fs, Some ("rename " ++ oldpath ++ ": no such file or directory"))
      end
  end.

Section Paths.

(** [path.Dir] of the Go standard library. *)
Variable path_Dir : string -> string.

(** [os.Stat] of the path. *)
Variable os_Stat : string -> StatResult.

(** [os.Mkdir(path, 0700)]. *)
Variable os_Mkdir : string -> N -> option error.

Definition PathExists (path : string) : bool * option error :=
  match os_Stat path with
  | StatOk => (true, None)
  | StatNotExist _ => (false, None)
  | StatOther e => (true, Some e)
  end.

Definition AssertPathExists (path : string) : option error :=
  let '(exist_, err) := PathExists path in
  match err with
  | Some e => Some e
  | None =>
      if negb exist_ then Some ("Path " ++ path ++ " does not exist") else None
  end.

Definition EnsureDirectoryExists (path : string) : option error :=
  let '(exists_, err) := PathExists path in
  match err with
  | Some e => Some e
  | None => if exists_ then None else os_Mkdir path 448%N
  end.

(** The path of the temporary file of one call. *)
Definition tempfile (o : Oracle) (filepath : string) : string :=
  path_Dir filepath ++ "/"
    ++ hex_EncodeToString (rand_Read o (replicate 16 x00)).1.

Definition SaveFile (o : Oracle) (filepath : string) (content : bytes)
    (fs : files) : files * option error :=
  let dir := path_Dir filepath in
  let randBytes := replicate 16 x00 in
  let '(randBytes, err) := rand_Read o randBytes in
  match err with
  | Some e => (fs, Some e)
  | None =>
      let tempfilename := hex_EncodeToString randBytes in
      let '(fs1, err) :=
        ioutil_WriteFile o (dir ++ "/" ++ tempfilename) content 384%N fs in
      match err with
      | Some e => (fs1, Some e)
      | None => os_Rename o (dir ++ "/" ++ tempfilename) filepath fs1
      end
  end.

(** The save stops before the rename: the random source fails or the write
    of the temporary file fails. *)
Definition fails_in_write_step (o : Oracle) : Prop :=
  rand_err o <> None \/ write_outcome o <> WriteOk.

End Paths.

End fs.

(** ** Package protocol *)

Module protocol.

Definition Status := string.
Definition Action := string.
Definition Version := string.

Definition StatusConnected : Status := "connected".
Definition StatusCommunicating : Status := "communicating".

Definition ActionDisclosing : Action := "disclosing".
Definition ActionSigning : Action := "signing".
Definition ActionIssuing : Action := "issuing".
Definition ActionUnknown : Action := "unknown".

Record Qr := {
  URL : string;
  Type_ : Action;
  ProtocolVersion : string;
  ProtocolMaxVersion : string
}.

(** [irmago.IssuerIdentifier]: a struct around the identifier's text, built
    by [irmago.NewIssuerIdentifier]. *)
Record IssuerIdentifier := NewIssuerIdentifier { issuer_string : string }.

#[export] Instance IssuerIdentifier_eq_dec : EqDecision IssuerIdentifier.
Proof. solve_decision. Defined.

#[export] Instance IssuerIdentifier_countable : Countable IssuerIdentifier.
Proof.
  refine (inj_countable' issuer_string NewIssuerIdentifier _).
  intros []; reflexivity.
Defined.

Section Decoding.

(** Go's [float64], and the conversion [int(f)] (truncation toward zero; what
    it gives outside the range of [int] depends on the platform). *)
Variable float64 : Type.
Variable int_of_float64 : float64 -> Z.

(** What [encoding/json] stores in an [interface{}]. *)
#[local] Unset Elimination Schemes.
Inductive JSON :=
| JNull
| JBool (b : bool)
| JNumber (f : float64)
| JString (s : string)
| JArray (l : list JSON)
| JObject (m : gmap string JSON).
#[local] Set Elimination Schemes.

Record SessionInfo := {
  Jwt : string;
  Nonce : option Z;
  Context : option Z;
  Keys : gmap IssuerIdentifier Z
}.

Record jsonSessionInfo := {
  json_Jwt : string;
  json_Nonce : option Z;
  json_Context : option Z;
  json_Keys : list (list JSON)
}.

(** [json.Unmarshal(b, temp)] into a fresh [jsonSessionInfo]. *)
Variable json_Unmarshal : bytes -> jsonSessionInfo * option error.

Definition failed : error := "Failed to deserialize session info".

(** The loop over [temp.Keys]; [keys] is [si.Keys] so far. *)
Fixpoint decodeKeys (items : list (list JSON))
    (keys : gmap IssuerIdentifier Z)
  : Outcome (gmap IssuerIdentifier Z * option error) :=
  match items with
  | [] => Return (keys, None)
  | item :: rest =>
      match item !! 0%nat with
      | None => Panic "index out of range [0]"
      | Some (JObject idmap) =>
          match idmap !! "identifier" with
          | Some (JString idstr) =>
              match item !! 1%nat with
              | None => Panic "index out of range [1]"
              | Some (JNumber counter) =>
                  let id := NewIssuerIdentifier idstr in
                  decodeKeys rest (<[id := int_of_float64 counter]> keys)
              | Some _ => Return (keys, Some failed)
              end
          | _ => Return (keys, Some failed)
          end
      | Some _ => Return (keys, Some failed)
      end
  end.

(** [(si *SessionInfo).UnmarshalJSON(b)]: the receiver after the call and the
    error returned. *)
Definition UnmarshalJSON (si : SessionInfo) (b : bytes)
  : Outcome (SessionInfo * option error) :=
  let '(temp, err) := json_Unmarshal b in
  match err with
  | Some e => Return (si, Some e)
  | None =>
      match decodeKeys (json_Keys temp) ∅ with
      | Return (keys, err) =>
          Return ({| Jwt := json_Jwt temp; Nonce := json_Nonce temp;
                     Context := json_Context temp; Keys := keys |}, err)
      | Panic r => Panic r
      end
  end.

(** An item of the shape the Java side sends: a pair of an object with a text
    field [identifier] and a number. *)
Definition pair_item (item : list JSON) (idstr : string) (counter : float64) : Prop :=
  exists idmap,
    item = [JObject idmap; JNumber counter]
    /\ idmap !! "identifier" = Some (JString idstr).

(** The map a list of (identifier, counter) pairs stands for; a later pair
    for the same identifier replaces an earlier one. *)
Definition keys_of (pairs : list (string * float64)) (keys : gmap IssuerIdentifier Z)
  : gmap IssuerIdentifier Z :=
  foldl (fun m p => <[NewIssuerIdentifier p.1 := int_of_float64 p.2]> m) keys pairs.

End Decoding.

Arguments JNull {float64}.
Arguments JBool {float64} b.
Arguments JNumber {float64} f.
Arguments JString {float64} s.
Arguments JArray {float64} l.
Arguments JObject {float64} m.

End protocol.

(** ** Package irmaclient: log entries *)

Module irmaclient.

(** *** What the file takes from package irma

    The request and response types of package [irma], the methods the log
    entries call on them, and [encoding/json] on the three request types.
    [json.Unmarshal] decodes into an existing value, which it may have changed
    even when it returns an error; so the decoders take the target and return
    the target after the call. *)
Class Irma := {
  AttributeDisjunctionList : Type;
  DisclosureRequest : Type;
  SignatureRequest : Type;
  IssuanceRequest : Type;
  irma_Disclosure : Type;
  ProofList : Type;
  IssueCommitmentMessage : Type;
  irma_Timestamp : Type;
  atum_Timestamp : Type;
  ProtocolVersion : Type;
  TranslatedString : Type;
  Configuration : Type;
  DisclosedAttribute : Type;
  CredentialInfo : Type;

  (** [&irma.DisclosureRequest{}] and the like: the zero values. *)
  DisclosureRequest_zero : DisclosureRequest;
  SignatureRequest_zero : SignatureRequest;
  IssuanceRequest_zero : IssuanceRequest;

  (** The method [ToDisclose] of the three implementations of
      [irma.SessionRequest]. *)
  DisclosureRequest_ToDisclose : DisclosureRequest -> AttributeDisjunctionList;
  SignatureRequest_ToDisclose : SignatureRequest -> AttributeDisjunctionList;
  IssuanceRequest_ToDisclose : IssuanceRequest -> AttributeDisjunctionList;

  (** The fields of a signature request that the log entries read. *)
  sig_Nonce : SignatureRequest -> option Z;
  sig_Context : SignatureRequest -> option Z;
  sig_Message : SignatureRequest -> string;
  sig_Timestamp : SignatureRequest -> option atum_Timestamp;

  Disclosure_Proofs : irma_Disclosure -> ProofList;
  IssueCommitmentMessage_Disclosure : IssueCommitmentMessage -> irma_Disclosure;

  (** [disclosure.DisclosedAttributes(conf, disjunctions)], without its first
      result, which the log entries drop. *)
  DisclosedAttributes :
    irma_Disclosure -> Configuration -> AttributeDisjunctionList ->
    list DisclosedAttribute * option error;
  GetCredentialInfoList :
    IssuanceRequest -> Configuration -> option ProtocolVersion ->
    list CredentialInfo * option error;

  (** The constant [irma.SignedMessageLDContext]. *)
  irma_SignedMessageLDContext : string;

  json_Marshal_DisclosureRequest : DisclosureRequest -> bytes * option error;
  json_Marshal_SignatureRequest : SignatureRequest -> bytes * option error;
  json_Marshal_IssuanceRequest : IssuanceRequest -> bytes * option error;
  json_Unmarshal_DisclosureRequest :
    bytes -> DisclosureRequest -> DisclosureRequest * option error;
  json_Unmarshal_SignatureRequest :
    bytes -> SignatureRequest -> SignatureRequest * option error;
  json_Unmarshal_IssuanceRequest :
    bytes -> IssuanceRequest -> IssuanceRequest * option error
}.

Definition Action := string.
Definition ActionDisclosing : Action := protocol.ActionDisclosing.
Definition ActionSigning : Action := protocol.ActionSigning.
Definition ActionIssuing : Action := protocol.ActionIssuing.
Definition ActionUnknown : Action := protocol.ActionUnknown.
Definition actionRemoval : Action := "removal".

Section LogEntries.

Context `{Irma}.

(** A non-nil value of the interface [irma.SessionRequest]: the struct behind
    the pointer, tagged with its dynamic type. *)
Inductive irma_SessionRequest :=
| PtrDisclosureRequest (r : DisclosureRequest)
| PtrSignatureRequest (r : SignatureRequest)
| PtrIssuanceRequest (r : IssuanceRequest).

Definition ToDisclose (request : irma_SessionRequest) : AttributeDisjunctionList :=
  match request with
  | PtrDisclosureRequest r => DisclosureRequest_ToDisclose r
  | PtrSignatureRequest r => SignatureRequest_ToDisclose r
  | PtrIssuanceRequest r => IssuanceRequest_ToDisclose r
  end.

(** [json.Marshal(v)] of an [irma.SessionRequest]; the nil interface encodes
    as the literal [null]. *)
Definition json_Marshal (v : option irma_SessionRequest) : bytes * option error :=
  match v with
  | None => (bytes_of_string "null", None)
  | Some (PtrDisclosureRequest r) => json_Marshal_DisclosureRequest r
  | Some (PtrSignatureRequest r) => json_Marshal_SignatureRequest r
  | Some (PtrIssuanceRequest r) => json_Marshal_IssuanceRequest r
  end.

(** [json.Unmarshal(data, v)] for a non-nil [v]: the struct behind [v] after
    the call, and the error. *)
Definition json_Unmarshal (data : bytes) (v : irma_SessionRequest)
  : irma_SessionRequest * option error :=
  match v with
  | PtrDisclosureRequest r =>
      let '(r', err) := json_Unmarshal_DisclosureRequest data r in
      (PtrDisclosureRequest r', err)
  | PtrSignatureRequest r =>
      let '(r', err) := json_Unmarshal_SignatureRequest data r in
      (PtrSignatureRequest r', err)
  | PtrIssuanceRequest r =>
      let '(r', err) := json_Unmarshal_IssuanceRequest data r in
      (PtrIssuanceRequest r', err)
  end.

(** *** The store

    Request structs live at locations; [unmarshals] records every call of
    [json.Unmarshal] (its input and its target), oldest first. *)
Definition loc := nat.

Record World := {
  heap : gmap loc irma_SessionRequest;
  unmarshals : list (bytes * loc)
}.

(** A new struct: [&T{}]. *)
Definition new (v : irma_SessionRequest) (w : World) : loc * World :=
  let l := fresh (dom (heap w)) in
  (l, {| heap := <[l := v]> (heap w); unmarshals := unmarshals w |}).

Record LogEntry := {
  Type_ : Action;
  Time : irma_Timestamp;
  Version : option ProtocolVersion;
  Request : bytes;
  request : option loc;
  Removed : gmap string (list TranslatedString);
  SignedMessage : bytes;
  Timestamp : option atum_Timestamp;
  SignedMessageLDContext : string;
  IssueCommitment : option IssueCommitmentMessage;
  Disclosure : option irma_Disclosure
}.

Definition set_request (entry : LogEntry) (v : option loc) : LogEntry :=
  {| Type_ := Type_ entry; Time := Time entry; Version := Version entry;
     Request := Request entry; request := v; Removed := Removed entry;
     SignedMessage := SignedMessage entry; Timestamp := Timestamp entry;
     SignedMessageLDContext := SignedMessageLDContext entry;
     IssueCommitment := IssueCommitment entry; Disclosure := Disclosure entry |}.

Definition set_Request (entry : LogEntry) (v : bytes) : LogEntry :=
  {| Type_ := Type_ entry; Time := Time entry; Version := Version entry;
     Request := v; request := request entry; Removed := Removed entry;
     SignedMessage := SignedMessage entry; Timestamp := Timestamp entry;
     SignedMessageLDContext := SignedMessageLDContext entry;
     IssueCommitment := IssueCommitment entry; Disclosure := Disclosure entry |}.

Definition set_signed (entry : LogEntry) (message : bytes)
    (timestamp : option atum_Timestamp) (ldcontext : string) : LogEntry :=
  {| Type_ := Type_ entry; Time := Time entry; Version := Version entry;
     Request := Request entry; request := request entry; Removed := Removed entry;
     SignedMessage := message; Timestamp := timestamp;
     SignedMessageLDContext := ldcontext;
     IssueCommitment := IssueCommitment entry; Disclosure := Disclosure entry |}.

Definition set_Disclosure (entry : LogEntry) (v : option irma_Disclosure) : LogEntry :=
  {| Type_ := Type_ entry; Time := Time entry; Version := Version entry;
     Request := Request entry; request := request entry; Removed := Removed entry;
     SignedMessage := SignedMessage entry; Timestamp := Timestamp entry;
     SignedMessageLDContext := SignedMessageLDContext entry;
     IssueCommitment := IssueCommitment entry; Disclosure := v |}.

Definition set_IssueCommitment (entry : LogEntry)
    (v : option IssueCommitmentMessage) : LogEntry :=
  {| Type_ := Type_ entry; Time := Time entry; Version := Version entry;
     Request := Request entry; request := request entry; Removed := Removed entry;
     SignedMessage := SignedMessage entry; Timestamp := Timestamp entry;
     SignedMessageLDContext := SignedMessageLDContext entry;
     IssueCommitment := v; Disclosure := Disclosure entry |}.

(** *** The methods of [LogEntry]

    A method on [entry *LogEntry] returns its Go results together with the
    entry and the store after the call. *)

Definition nil_dereference : string :=
  "invalid memory address or nil pointer dereference".

(** [json.Unmarshal(data, p)] where [p] points to location [l]. *)
Definition unmarshal_into (data : bytes) (l : loc) (w : World)
  : Outcome (option error * World) :=
  match heap w !! l with
  | None => Panic nil_dereference
  | Some v =>
      let '(v', err) := json_Unmarshal data v in
      Return (err, {| heap := <[l := v']> (heap w);
                      unmarshals := unmarshals w ++ [(data, l)] |})
  end.

Definition SessionRequest (entry : LogEntry) (w : World)
  : Outcome ((option loc * option error) * LogEntry * World) :=
  let filled : option (loc * LogEntry * World) :=
    match request entry with
    | Some l => Some (l, entry, w)
    | None =>
        if decide (Type_ entry = ActionDisclosing) then
          let '(l, w) := new (PtrDisclosureRequest DisclosureRequest_zero) w in
          Some (l, set_request entry (Some l), w)
        else if decide (Type_ entry = ActionSigning) then
          let '(l, w) := new (PtrSignatureRequest SignatureRequest_zero) w in
          Some (l, set_request entry (Some l), w)
        else if decide (Type_ entry = ActionIssuing) then
          let '(l, w) := new (PtrIssuanceRequest IssuanceRequest_zero) w in
          Some (l, set_request entry (Some l), w)
        else None
    end in
  match filled with
  | None => Return ((None, None), entry, w)
  | Some (l, entry, w) =>
      match unmarshal_into (Request entry) l w with
      | Panic r => Panic r
      | Return (Some err, w) => Return ((None, Some err), entry, w)
      | Return (None, w) => Return ((request entry, None), entry, w)
      end
  end.

Definition setSessionRequest (entry : LogEntry) (w : World)
  : Outcome (option error * LogEntry) :=
  let marshalled : Outcome (bytes * option error) :=
    match request entry with
    | None => Return (json_Marshal None)
    | Some l =>
        match heap w !! l with
        | None => Panic nil_dereference
        | Some v => Return (json_Marshal (Some v))
        end
    end in
  match marshalled with
  | Panic r => Panic r
  | Return (bts, Some err) => Return (Some err, entry)
  | Return (bts, None) => Return (None, set_Request entry bts)
  end.

Definition GetDisclosedCredentials (entry : LogEntry) (conf : Configuration)
    (w : World)
  : Outcome ((list DisclosedAttribute * option error) * LogEntry * World) :=
  if decide (Type_ entry = actionRemoval) then Return (([], None), entry, w)
  else
    match SessionRequest entry w with
    | Panic r => Panic r
    | Return ((_, Some err), entry, w) => Return (([], Some err), entry, w)
    | Return ((request, None), entry, w) =>
        match request ≫= (fun l => heap w !! l) with
        | None => Panic nil_dereference
        | Some v =>
            let disjunctions := ToDisclose v in
            let disclosure : Outcome (option irma_Disclosure) :=
              if decide (Type_ entry = ActionIssuing) then
                match IssueCommitment entry with
                | None => Panic nil_dereference
                | Some m => Return (Some (IssueCommitmentMessage_Disclosure m))
                end
              else Return (Disclosure entry) in
            match disclosure with
            | Panic r => Panic r
            | Return None => Panic nil_dereference
            | Return (Some d) =>
                Return (DisclosedAttributes d conf disjunctions, entry, w)
            end
        end
    end.

Definition GetIssuedCredentials (entry : LogEntry) (conf : Configuration)
    (w : World)
  : Outcome ((list CredentialInfo * option error) * LogEntry * World) :=
  if decide (Type_ entry <> ActionIssuing) then Return (([], None), entry, w)
  else
    match SessionRequest entry w with
    | Panic r => Panic r
    | Return ((_, Some err), entry, w) => Return (([], Some err), entry, w)
    | Return ((request, None), entry, w) =>
        match request ≫= (fun l => heap w !! l) with
        | Some (PtrIssuanceRequest r) =>
            Return (GetCredentialInfoList r conf (Version entry), entry, w)
        | _ => Panic "interface conversion: not *irma.IssuanceRequest"
        end
    end.

Record SignedMessage_ := {
  sm_LDContext : string;
  sm_Signature : ProofList;
  sm_Nonce : option Z;
  sm_Context : option Z;
  sm_Message : string;
  sm_Timestamp : option atum_Timestamp
}.

Definition GetSignedMessage (entry : LogEntry) (w : World)
  : Outcome ((option SignedMessage_ * option error) * LogEntry * World) :=
  if decide (Type_ entry <> ActionSigning) then Return ((None, None), entry, w)
  else
    match SessionRequest entry w with
    | Panic r => Panic r
    | Return ((_, Some err), entry, w) => Return ((None, Some err), entry, w)
    | Return ((request, None), entry, w) =>
        match request ≫= (fun l => heap w !! l) with
        | Some (PtrSignatureRequest sigrequest) =>
            match Disclosure entry with
            | None => Panic nil_dereference
            | Some disclosure =>
                Return ((Some {| sm_LDContext := SignedMessageLDContext entry;
                                 sm_Signature := Disclosure_Proofs disclosure;
                                 sm_Nonce := sig_Nonce sigrequest;
                                 sm_Context := sig_Context sigrequest;
                                 sm_Message := string_of_bytes (SignedMessage entry);
                                 sm_Timestamp := Timestamp entry |}, None),
                        entry, w)
            end
        | _ => Panic "interface conversion: not *irma.SignatureRequest"
        end
    end.

(** *** Creating a log entry *)

(** The fields of [session] that [createLogEntry] reads. *)
Record session := {
  Action_ : Action;
  session_Version : option ProtocolVersion;
  session_request : option loc
}.

(** The argument [response interface{}] by its dynamic type. *)
Inductive Response :=
| ResponseDisclosure (d : irma_Disclosure)
| ResponseIssueCommitment (m : IssueCommitmentMessage)
| ResponseOther.

Definition createLogEntry (s : session) (response : Response)
    (now : irma_Timestamp) (w : World)
  : Outcome (option LogEntry * option error) :=
  let entry :=
    {| Type_ := Action_ s; Time := now; Version := session_Version s;
       Request := []; request := session_request s; Removed := ∅;
       SignedMessage := []; Timestamp := None; SignedMessageLDContext := "";
       IssueCommitment := None; Disclosure := None |} in
  match setSessionRequest entry w with
  | Panic r => Panic r
  | Return (Some err, _) => Return (None, Some err)
  | Return (None, entry) =>
      let disclosing (entry : LogEntry) :=
        match response with
        | ResponseDisclosure d => Return (Some (set_Disclosure entry (Some d)), None)
        | _ => Panic "interface conversion: not *irma.Disclosure"
        end in
      if decide (Type_ entry = actionRemoval) then Return (Some entry, None)
      else if decide (Type_ entry = ActionSigning) then
        match session_request s ≫= (fun l => heap w !! l) with
        | Some (PtrSignatureRequest request) =>
            disclosing
              (set_signed entry (bytes_of_string (sig_Message request))
                 (sig_Timestamp request) irma_SignedMessageLDContext)
        | _ => Panic "interface conversion: not *irma.SignatureRequest"
        end
      else if decide (Type_ entry = ActionDisclosing) then disclosing entry
      else if decide (Type_ entry = ActionIssuing) then
        match response with
        | ResponseIssueCommitment m =>
            Return (Some (set_IssueCommitment entry (Some m)), None)
        | _ => Panic "interface conversion: not *irma.IssueCommitmentMessage"
        end
      else Return (None, Some "Invalid log type")
  end.

(** *** Notions used in the statements *)

(** The struct that the switch of [SessionRequest] allocates for a kind. *)
Definition fresh_request (type : Action) : option irma_SessionRequest :=
  if decide (type = ActionDisclosing) then
    Some (PtrDisclosureRequest DisclosureRequest_zero)
  else if decide (type = ActionSigning) then
    Some (PtrSignatureRequest SignatureRequest_zero)
  else if decide (type = ActionIssuing) then
    Some (PtrIssuanceRequest IssuanceRequest_zero)
  else None.

(** The kinds that carry a request. *)
Definition request_bearing (type : Action) : Prop :=
  type = ActionDisclosing \/ type = ActionSigning \/ type = ActionIssuing.

(** The four known kinds. *)
Definition known_kind (type : Action) : Prop :=
  request_bearing type \/ type = actionRemoval.

(** The cached request of an entry, if any, is allocated. *)
Definition cache_allocated (entry : LogEntry) (w : World) : Prop :=
  forall l, request entry = Some l -> is_Some (heap w !! l).

(** Bytes that [json.Unmarshal] rejects whatever it decodes into. *)
Definition malformed (data : bytes) : Prop :=
  forall v, (json_Unmarshal data v).2 <> None.

(** [json.Marshal] never returns an empty encoding. *)
Definition marshal_nonempty : Prop :=
  forall v bts, json_Marshal (Some v) = (bts, None) -> bts <> [].

(** Decoding the encoding of a request into that request succeeds and gives
    a request with the same disjunctions. *)
Definition round_trips_disjunctions : Prop :=
  forall v bts,
    json_Marshal (Some v) = (bts, None) ->
    exists v', json_Unmarshal bts v = (v', None)
               /\ ToDisclose v' = ToDisclose v.

(** The same from the zero value of the request's own type, as after
    loading an entry from storage. *)
Definition same_type (v v' : irma_SessionRequest) : Prop :=
  match v, v' with
  | PtrDisclosureRequest _, PtrDisclosureRequest _
  | PtrSignatureRequest _, PtrSignatureRequest _
  | PtrIssuanceRequest _, PtrIssuanceRequest _ => True
  | _, _ => False
  end.

Definition round_trips_from_zero : Prop :=
  forall type zero v bts,
    fresh_request type = Some zero -> same_type zero v ->
    json_Marshal (Some v) = (bts, None) ->
    exists v', json_Unmarshal bts zero = (v', None)
               /\ ToDisclose v' = ToDisclose v.

(** Decoding the encoding of a signature request into that request succeeds
    and keeps its nonce and its context. *)
Definition round_trips_signature : Prop :=
  forall r bts,
    json_Marshal_SignatureRequest r = (bts, None) ->
    exists r', json_Unmarshal_SignatureRequest bts r = (r', None)
               /\ sig_Nonce r' = sig_Nonce r
               /\ sig_Context r' = sig_Context r.

(** [setSessionRequest] succeeds on the entry made for session [s]: the
    session's request, if any, is allocated and its encoding is [bts]. *)
Definition encodes (s : session) (w : World) (bts : bytes) : Prop :=
  (forall l, session_request s = Some l -> is_Some (heap w !! l))
  /\ json_Marshal (session_request s ≫= (fun l => heap w !! l)) = (bts, None).

(** *** Sessions of the data model *)

(** The request of a session, nil or the struct behind the pointer. *)
Definition session_original (s : session) (w : World)
  : option irma_SessionRequest :=
  session_request s ≫= (fun l => heap w !! l).

(** A session as the data model has it: a removal session holds no request;
    a disclosing, signing or issuing session holds a request of the type of
    its kind. *)
Definition session_of_data_model (s : session) (w : World) : Prop :=
  (Action_ s = actionRemoval /\ session_request s = None)
  \/ exists l v zero,
       session_request s = Some l /\ heap w !! l = Some v
       /\ fresh_request (Action_ s) = Some zero /\ same_type zero v.

(** The outcome of a call of [SessionRequest] gives back the request
    [original]: a request with the same disjunctions when there was one,
    and no request and no error when there was none. *)
Definition reconstructs (original : option irma_SessionRequest)
    (o : Outcome ((option loc * option error) * LogEntry * World)) : Prop :=
  match original with
  | Some v =>
      exists l entry' w' v',
        o = Return ((Some l, None), entry', w')
        /\ heap w' !! l = Some v' /\ ToDisclose v' = ToDisclose v
  | None => exists entry' w', o = Return ((None, None), entry', w')
  end.

(** What a decoded request discloses is what the data say, not what the
    target held: decoding the same bytes into two requests of one type
    succeeds for both or for neither, with the same disjunctions. *)
Definition decode_replaces_disjunctions : Prop :=
  forall data t1 t2 r1,
    same_type t1 t2 -> json_Unmarshal data t1 = (r1, None) ->
    exists r2, json_Unmarshal data t2 = (r2, None)
               /\ ToDisclose r2 = ToDisclose r1.

(** The encoding of a signature request decodes into the zero value to a
    request with the same nonce and context. *)
Definition signature_round_trips_from_zero : Prop :=
  forall r bts,
    json_Marshal_SignatureRequest r = (bts, None) ->
    exists r', json_Unmarshal_SignatureRequest bts SignatureRequest_zero
               = (r', None)
               /\ sig_Nonce r' = sig_Nonce r
               /\ sig_Context r' = sig_Context r.

(** The nonce and context of a decoded signature request are what the data
    say, whatever the target held. *)
Definition decode_replaces_signature : Prop :=
  forall data t1 t2 r1,
    json_Unmarshal_SignatureRequest data t1 = (r1, None) ->
    exists r2, json_Unmarshal_SignatureRequest data t2 = (r2, None)
               /\ sig_Nonce r2 = sig_Nonce r1
               /\ sig_Context r2 = sig_Context r1.



End LogEntries.

End irmaclient.

(** ** Concrete instances

    Small concrete stand-ins for what the embedding leaves open (the
    operating system, [encoding/json], package [irma]), on which the
    functions above can be run. *)

Module sample.

Import irmaclient.

(** *** A request codec

    One struct serves for the three request types. On the wire a request is a
    tag byte, the nonce, the context, and then the content; the message is
    not on the wire, and decoding leaves the target's message as it is. *)
Record request_struct := {
  r_nonce : byte;
  r_context : byte;
  r_message : string;
  r_content : bytes
}.

Definition r_zero : request_struct :=
  {| r_nonce := x00; r_context := x00; r_message := ""; r_content := [] |}.

Definition marshal (tag : byte) (r : request_struct) : bytes * option error :=
  (tag :: r_nonce r :: r_context r :: r_content r, None).

Definition unmarshal (tag : byte) (data : bytes) (target : request_struct)
  : request_struct * option error :=
  match data with
  | t :: n :: c :: rest =>
      if Byte.eqb t tag then
        ({| r_nonce := n; r_context := c; r_message := r_message target;
            r_content := rest |}, None)
      else (target, Some "invalid character at the start of the value")
  | _ => (target, Some "unexpected end of input")
  end.

Definition Z_of_byte (b : byte) : Z := Z.of_N (Byte.to_N b).

#[export] Instance irma : Irma := {|
  AttributeDisjunctionList := bytes;
  DisclosureRequest := request_struct;
  SignatureRequest := request_struct;
  IssuanceRequest := request_struct;
  irma_Disclosure := bytes;
  ProofList := bytes;
  IssueCommitmentMessage := bytes;
  irma_Timestamp := Z;
  atum_Timestamp := Z;
  ProtocolVersion := string;
  TranslatedString := string;
  Configuration := unit;
  DisclosedAttribute := byte;
  CredentialInfo := byte;
  DisclosureRequest_zero := r_zero;
  SignatureRequest_zero := r_zero;
  IssuanceRequest_zero := r_zero;
  DisclosureRequest_ToDisclose := r_content;
  SignatureRequest_ToDisclose := r_content;
  IssuanceRequest_ToDisclose := r_content;
  sig_Nonce := fun r => Some (Z_of_byte (r_nonce r));
  sig_Context := fun r => Some (Z_of_byte (r_context r));
  sig_Message := r_message;
  sig_Timestamp := fun _ => None;
  Disclosure_Proofs := fun d => d;
  IssueCommitmentMessage_Disclosure := fun m => m;
  DisclosedAttributes := fun d _ _ => (d, None);
  GetCredentialInfoList := fun r _ _ => (r_content r, None);
  irma_SignedMessageLDContext := "https://irma.app/ld/signature/v2";
  json_Marshal_DisclosureRequest := marshal "d";
  json_Marshal_SignatureRequest := marshal "s";
  json_Marshal_IssuanceRequest := marshal "i";
  json_Unmarshal_DisclosureRequest := unmarshal "d";
  json_Unmarshal_SignatureRequest := unmarshal "s";
  json_Unmarshal_IssuanceRequest := unmarshal "i"
|}.

(** A signature request for the message "hello", at location 0 of a store
    with nothing else in it. *)
Definition sigrequest : request_struct :=
  {| r_nonce := x2a; r_context := x01; r_message := "hello";
     r_content := bytes_of_string "irma-demo.RU.studentCard.level" |}.

Definition world0 : World :=
  {| heap := {[ 0%nat := PtrSignatureRequest sigrequest ]}; unmarshals := [] |}.

Definition empty_world : World := {| heap := ∅; unmarshals := [] |}.

Definition signing_session : session :=
  {| Action_ := ActionSigning; session_Version := Some "2.4";
     session_request := Some 0%nat |}.

(** A session of kind removal, which has no request. *)
Definition removal_session : session :=
  {| Action_ := actionRemoval; session_Version := None;
     session_request := None |}.

(** A session of kind removal that does hold a request. *)
Definition removal_session_with_request : session :=
  {| Action_ := actionRemoval; session_Version := None;
     session_request := Some 0%nat |}.

(** An entry as it is after loading it from storage: nothing cached. *)
Definition loaded_entry (type : Action) (raw : bytes) : LogEntry :=
  {| Type_ := type; Time := 0%Z; Version := None; Request := raw;
     request := None; Removed := ∅; SignedMessage := []; Timestamp := None;
     SignedMessageLDContext := ""; IssueCommitment := None;
     Disclosure := None |}.

Definition proofs : bytes := bytes_of_string "proofs".

(** The response of a disclosure or signing session. *)
Definition response : Response := ResponseDisclosure (H := irma) proofs.

(** The entry that [createLogEntry] makes of [signing_session] in [world0]
    at time 0 with the response [proofs]. *)
Definition signing_entry : LogEntry :=
  {| Type_ := ActionSigning; Time := 0%Z; Version := Some "2.4";
     Request :=
       "s"%byte :: x2a :: x01 :: bytes_of_string "irma-demo.RU.studentCard.level";
     request := Some 0%nat; Removed := ∅;
     SignedMessage := bytes_of_string "hello"; Timestamp := None;
     SignedMessageLDContext := "https://irma.app/ld/signature/v2";
     IssueCommitment := None; Disclosure := Some proofs |}.

(** An entry of kind removal with every payload field filled in. *)
Definition removal_entry : LogEntry :=
  {| Type_ := actionRemoval; Time := 0%Z; Version := Some "2.4";
     Request := bytes_of_string "d*!abc"; request := Some 0%nat;
     Removed := {[ "irma-demo.RU.studentCard" := ["level"] ]};
     SignedMessage := bytes_of_string "hello"; Timestamp := Some 7%Z;
     SignedMessageLDContext := "https://irma.app/ld/signature/v2";
     IssueCommitment := Some proofs; Disclosure := Some proofs |}.

(** A disclosing entry from storage, and what it is after one call of
    [SessionRequest] in the empty store: the request is cached at
    location 0. *)
Definition disclosing_entry : LogEntry :=
  loaded_entry ActionDisclosing (bytes_of_string "d*!abc").

Definition cached_entry : LogEntry := set_request disclosing_entry (Some 0%nat).

Definition cached_world : World :=
  {| heap := {[ 0%nat := PtrDisclosureRequest
                           {| r_nonce := "*"; r_context := "!"; r_message := "";
                              r_content := bytes_of_string "abc" |} ]};
     unmarshals := [(bytes_of_string "d*!abc", 0%nat)] |}.

(** The same store after the caller has written other disjunctions through
    the pointer it was given. *)
Definition edited_world : World :=
  {| heap := {[ 0%nat := PtrDisclosureRequest
                           {| r_nonce := "*"; r_context := "!"; r_message := "";
                              r_content := bytes_of_string "xyz" |} ]};
     unmarshals := [(bytes_of_string "d*!abc", 0%nat)] |}.

(** A disclosing entry from storage whose [Request] is cut short. *)
Definition broken_entry : LogEntry :=
  loaded_entry ActionDisclosing (bytes_of_string "d").

(** *** An operating system *)

(** The directory of a path without [.] or [..] elements and without
    repeated slashes: what is before its last slash. *)
Fixpoint dir_chars (cs : list ascii) : option (list ascii) :=
  match cs with
  | [] => None
  | c :: rest =>
      match dir_chars rest with
      | Some d => Some (c :: d)
      | None => if Ascii.eqb c "/" then Some [] else None
      end
  end.

Definition path_Dir (path : string) : string :=
  match dir_chars (list_ascii_of_string path) with
  | Some [] => "/"
  | Some d => string_of_list_ascii d
  | None => "."
  end.

Definition oracle (rand : option error) (write : fs.WriteOutcome)
    (rename : option error) : fs.Oracle :=
  {| fs.rand_stream := fun _ => xab; fs.rand_err := rand;
     fs.write_outcome := write; fs.rename_err := rename |}.

Definition disk : fs.files :=
  {[ "storage/logs" := fs.File (bytes_of_string "old") 384%N ]}.

(** *** Session-info messages *)

(** [float64] as the IEEE 754 values of the standard library, and [int(f)]
    on them: truncation toward zero; outside the 64-bit range, and for
    infinities and NaN, the value the amd64 conversion gives. *)
Definition int_of_float64 (f : spec_float) : Z :=
  match f with
  | S754_zero _ => 0
  | S754_finite s m e =>
      let magnitude := Z.shiftl (Z.pos m) e in
      let v := if s then (- magnitude)%Z else magnitude in
      if decide (- 2 ^ 63 <= v < 2 ^ 63)%Z then v else (- 2 ^ 63)%Z
  | _ => (- 2 ^ 63)%Z
  end.

Definition quote : string := String (ascii_of_nat 34) "".

(** A session info whose only key item has one element:
    {"keys":[[{"identifier":"irma-demo.RU"}]]}. *)
Definition short_item : list (protocol.JSON spec_float) :=
  [protocol.JObject {[ "identifier" := protocol.JString "irma-demo.RU" ]}].

Definition short_message : bytes :=
  bytes_of_string
    ("{" ++ quote ++ "keys" ++ quote ++ ":[[{" ++ quote ++ "identifier" ++ quote
     ++ ":" ++ quote ++ "irma-demo.RU" ++ quote ++ "}]]}").

(** A session info with one well-formed key item:
    {"keys":[[{"identifier":"irma-demo.RU"},3]]}. *)
Definition pair_item : list (protocol.JSON spec_float) :=
  [protocol.JObject {[ "identifier" := protocol.JString "irma-demo.RU" ]};
   protocol.JNumber (S754_finite false 3 0)].

Definition pair_message : bytes :=
  bytes_of_string
    ("{" ++ quote ++ "keys" ++ quote ++ ":[[{" ++ quote ++ "identifier" ++ quote
     ++ ":" ++ quote ++ "irma-demo.RU" ++ quote ++ "},3]]}").

Definition temp_of (keys : list (list (protocol.JSON spec_float)))
  : protocol.jsonSessionInfo spec_float :=
  {| protocol.json_Jwt := ""; protocol.json_Nonce := None;
     protocol.json_Context := None; protocol.json_Keys := keys |}.

(** [encoding/json] on the two messages above. *)
Definition json_Unmarshal (b : bytes)
  : protocol.jsonSessionInfo spec_float * option error :=
  if decide (b = short_message) then (temp_of [short_item], None)
  else if decide (b = pair_message) then (temp_of [pair_item], None)
  else (temp_of [], Some "invalid character").

Definition si0 : protocol.SessionInfo :=
  {| protocol.Jwt := ""; protocol.Nonce := None; protocol.Context := None;
     protocol.Keys := ∅ |}.

End sample.

(** ** Auxiliary definitions *)

Module aux.

(** The value of a hexadecimal digit: the inverse of [fs.hexdigit]. *)
Definition unhexdigit (c : ascii) : N :=
  (if Ascii.eqb c "0" then 0 else if Ascii.eqb c "1" then 1
   else if Ascii.eqb c "2" then 2 else if Ascii.eqb c "3" then 3
   else if Ascii.eqb c "4" then 4 else if Ascii.eqb c "5" then 5
   else if Ascii.eqb c "6" then 6 else if Ascii.eqb c "7" then 7
   else if Ascii.eqb c "8" then 8 else if Ascii.eqb c "9" then 9
   else if Ascii.eqb c "a" then 10 else if Ascii.eqb c "b" then 11
   else if Ascii.eqb c "c" then 12 else if Ascii.eqb c "d" then 13
   else if Ascii.eqb c "e" then 14 else 15)%N.

(** Reading back what [fs.hex_EncodeToString] wrote. *)
Fixpoint unhex (s : string) : bytes :=
  match s with
  | String h (String l rest) =>
      match Byte.of_N (16 * unhexdigit h + unhexdigit l) with
      | Some b => b :: unhex rest
      | None => []
      end
  | _ => []
  end.

(** The first [n] bytes of the random source of an oracle. *)
Definition random_bytes (o : fs.Oracle) (n : nat) : bytes :=
  fs.rand_stream o <$> seq 0 n.

(** [encoding/json] on one given session-info message. *)
Definition decoder_for (message : bytes)
    (temp : protocol.jsonSessionInfo spec_float) (b : bytes)
  : protocol.jsonSessionInfo spec_float * option error :=
  if decide (b = message) then (temp, None)
  else (sample.temp_of [], Some "invalid character").

Definition identifier_object (id : string) : protocol.JSON spec_float :=
  protocol.JObject {[ "identifier" := protocol.JString id ]}.

Definition number (n : positive) : protocol.JSON spec_float :=
  protocol.JNumber (S754_finite false n 0).

(** {"jwt":"token","keys":[[{"identifier":"irma-demo.RU"},3],
    [{"identifier":"irma-demo.MijnOverheid"},"x"]]}: the second item has a
    text where the counter should be. *)
Definition text_counter_keys : list (list (protocol.JSON spec_float)) :=
  [[identifier_object "irma-demo.RU"; number 3];
   [identifier_object "irma-demo.MijnOverheid"; protocol.JString "x"]].

Definition text_counter_temp : protocol.jsonSessionInfo spec_float :=
  {| protocol.json_Jwt := "token"; protocol.json_Nonce := Some 5%Z;
     protocol.json_Context := None; protocol.json_Keys := text_counter_keys |}.

Definition text_counter_message : bytes :=
  bytes_of_string
    ("{" ++ sample.quote ++ "jwt" ++ sample.quote ++ ":" ++ sample.quote
     ++ "token" ++ sample.quote ++ "," ++ sample.quote ++ "nonce" ++ sample.quote
     ++ ":5," ++ sample.quote ++ "keys" ++ sample.quote ++ ":[[{" ++ sample.quote
     ++ "identifier" ++ sample.quote ++ ":" ++ sample.quote ++ "irma-demo.RU"
     ++ sample.quote ++ "},3],[{" ++ sample.quote ++ "identifier" ++ sample.quote
     ++ ":" ++ sample.quote ++ "irma-demo.MijnOverheid" ++ sample.quote ++ "},"
     ++ sample.quote ++ "x" ++ sample.quote ++ "]]}").

(** {"keys":[[{"identifier":"irma-demo.RU"},3],
    [{"identifier":"irma-demo.RU"},4]]}: the same issuer twice. *)
Definition repeated_keys : list (list (protocol.JSON spec_float)) :=
  [[identifier_object "irma-demo.RU"; number 3];
   [identifier_object "irma-demo.RU"; number 4]].

Definition repeated_message : bytes :=
  bytes_of_string
    ("{" ++ sample.quote ++ "keys" ++ sample.quote ++ ":[[{" ++ sample.quote
     ++ "identifier" ++ sample.quote ++ ":" ++ sample.quote ++ "irma-demo.RU"
     ++ sample.quote ++ "},3],[{" ++ sample.quote ++ "identifier" ++ sample.quote
     ++ ":" ++ sample.quote ++ "irma-demo.RU" ++ sample.quote ++ "},4]]}").

(** A receiver that already holds a key. *)
Definition si_with_key : protocol.SessionInfo :=
  {| protocol.Jwt := "old"; protocol.Nonce := None; protocol.Context := None;
     protocol.Keys :=
       {[ protocol.NewIssuerIdentifier "irma-demo.MijnOverheid" := 9%Z ]} |}.

(** A disk with two files; the log file is readable by everyone. *)
Definition disk2 : fs.files :=
  {[ "storage/logs" := fs.File (bytes_of_string "old") 420%N;
     "storage/attrs" := fs.File (bytes_of_string "attributes") 384%N ]}.

(** *** More sessions and entries on the sample codec *)

Section sessions.

Import irmaclient.

#[local] Existing Instance sample.irma.

(** The entry that [createLogEntry] returns, when it returns one. *)
Definition created (s : session) (response : Response) (now : Z) (w : World)
  : LogEntry :=
  match createLogEntry s response now w with
  | Return (Some entry, _) => entry
  | _ => sample.loaded_entry "" []
  end.

(** The store after a call on an entry; the empty store when it panics. *)
Definition world_after {A : Type} (o : Outcome (A * LogEntry * World)) : World :=
  match o with
  | Return (_, _, w) => w
  | Panic _ => sample.empty_world
  end.

Definition issuance_request : sample.request_struct :=
  {| sample.r_nonce := x07; sample.r_context := x01; sample.r_message := "";
     sample.r_content := bytes_of_string "irma-demo.MijnOverheid.ageLower" |}.

(** A store with the signature request at location 0 and an issuance
    request at location 1. *)
Definition world2 : World :=
  {| heap := {[ 0%nat := PtrSignatureRequest sample.sigrequest;
                1%nat := PtrIssuanceRequest issuance_request ]};
     unmarshals := [] |}.

Definition issuing_session : session :=
  {| Action_ := ActionIssuing; session_Version := Some "2.4";
     session_request := Some 1%nat |}.

(** An issuing session that holds the signature request. *)
Definition confused_session : session :=
  {| Action_ := ActionIssuing; session_Version := Some "2.4";
     session_request := Some 0%nat |}.

Definition disclosing_session : session :=
  {| Action_ := ActionDisclosing; session_Version := Some "2.4";
     session_request := Some 0%nat |}.

Definition unknown_session : session :=
  {| Action_ := ActionUnknown; session_Version := None;
     session_request := None |}.

Definition commitment : Response :=
  ResponseIssueCommitment (bytes_of_string "commitments").

(** A signing entry from storage in which the disclosure is missing. *)
Definition signing_entry_without_disclosure : LogEntry :=
  sample.loaded_entry ActionSigning (Request sample.signing_entry).

(** The sample codec, except that issuance requests cannot be encoded. *)
Definition irma_unencodable : Irma := {|
  AttributeDisjunctionList := bytes;
  DisclosureRequest := sample.request_struct;
  SignatureRequest := sample.request_struct;
  IssuanceRequest := sample.request_struct;
  irma_Disclosure := bytes;
  ProofList := bytes;
  IssueCommitmentMessage := bytes;
  irma_Timestamp := Z;
  atum_Timestamp := Z;
  ProtocolVersion := string;
  TranslatedString := string;
  Configuration := unit;
  DisclosedAttribute := byte;
  CredentialInfo := byte;
  DisclosureRequest_zero := sample.r_zero;
  SignatureRequest_zero := sample.r_zero;
  IssuanceRequest_zero := sample.r_zero;
  DisclosureRequest_ToDisclose := sample.r_content;
  SignatureRequest_ToDisclose := sample.r_content;
  IssuanceRequest_ToDisclose := sample.r_content;
  sig_Nonce := fun r => Some (sample.Z_of_byte (sample.r_nonce r));
  sig_Context := fun r => Some (sample.Z_of_byte (sample.r_context r));
  sig_Message := sample.r_message;
  sig_Timestamp := fun _ => None;
  Disclosure_Proofs := fun d => d;
  IssueCommitmentMessage_Disclosure := fun m => m;
  DisclosedAttributes := fun d _ _ => (d, None);
  GetCredentialInfoList := fun r _ _ => (sample.r_content r, None);
  irma_SignedMessageLDContext := "https://irma.app/ld/signature/v2";
  json_Marshal_DisclosureRequest := sample.marshal "d";
  json_Marshal_SignatureRequest := sample.marshal "s";
  json_Marshal_IssuanceRequest :=
    fun _ => ([], Some "json: unsupported value");
  json_Unmarshal_DisclosureRequest := sample.unmarshal "d";
  json_Unmarshal_SignatureRequest := sample.unmarshal "s";
  json_Unmarshal_IssuanceRequest := sample.unmarshal "i"
|}.

(** An issuing session under that codec, and its store. *)
Definition unencodable_world : World (H := irma_unencodable) :=
  Build_World (H := irma_unencodable)
    {[ 1%nat := PtrIssuanceRequest (H := irma_unencodable) issuance_request ]}
    [].

Definition unencodable_session : session (H := irma_unencodable) :=
  Build_session (H := irma_unencodable) ActionIssuing (Some "2.4") (Some 1%nat).

End sessions.

End aux.

(** * Properties *)

(** ** The atomic save *)

Section fs_properties.

Import fs.

Variable path_Dir : string -> string.

Lemma written_lookup filename data perm (fs : files) :
  content <$> written filename data perm fs !! filename = Some data.
Proof.
  unfold written. destruct (fs !! filename); by rewrite lookup_insert_eq.
Qed.

Lemma written_lookup_ne filename data perm (fs : files) other :
  filename ≠ other ->
  written filename data perm fs !! other = fs !! other.
Proof.
  intros Hne. unfold written.
  destruct (fs !! filename); by rewrite lookup_insert_ne.
Qed.

Lemma WriteFile_ok o filename data perm (fs fs1 : files) :
  ioutil_WriteFile o filename data perm fs = (fs1, None) ->
  content <$> fs1 !! filename = Some data.
Proof.
  unfold ioutil_WriteFile. destruct (write_outcome o); intros [= <-].
  apply written_lookup.
Qed.

Lemma WriteFile_other o filename data perm (fs : files) other :
  filename ≠ other ->
  (ioutil_WriteFile o filename data perm fs).1 !! other = fs !! other.
Proof.
  intros Hne. unfold ioutil_WriteFile.
  destruct (write_outcome o); simpl; auto using written_lookup_ne.
Qed.

Lemma WriteFile_fails o filename data perm (fs : files) :
  write_outcome o ≠ WriteOk ->
  exists e, (ioutil_WriteFile o filename data perm fs).2 = Some e.
Proof.
  unfold ioutil_WriteFile. destruct (write_outcome o); [done | eauto ..].
Qed.

Lemma Rename_ok o oldpath newpath (fs fs' : files) :
  os_Rename o oldpath newpath fs = (fs', None) ->
  fs' !! newpath = fs !! oldpath.
Proof.
  unfold os_Rename. destruct (rename_err o); [done |].
  destruct (fs !! oldpath) eqn:Hold; [| done].
  intros [= <-]. by rewrite lookup_insert_eq.
Qed.

(** C7. When [SaveFile] returns no error, the file at the target path holds
    exactly the bytes that were passed to it. *)
Theorem SaveFile_then_read o filepath data (fs fs' : files) :
  SaveFile path_Dir o filepath data fs = (fs', None) ->
  ReadFile filepath fs' = Some data.
Proof.
  unfold SaveFile, ReadFile.
  destruct (rand_Read o (replicate 16 x00)) as [randBytes [e|]]; [done |].
  destruct (ioutil_WriteFile _ _ _ _ _) as [fs1 [e|]] eqn:Hwrite; [done |].
  intros Hrename. rewrite (Rename_ok _ _ _ _ _ Hrename).
  exact (WriteFile_ok _ _ _ _ _ _ Hwrite).
Qed.

(** C6. When the save fails before the rename (the random source fails, or
    writing the temporary file fails), the error is returned and the target
    path is as it was: same file, or still absent. The temporary file is taken
    to be another path than the target. *)
Theorem SaveFile_write_failure_keeps_target o filepath data (fs : files) :
  fails_in_write_step o ->
  (rand_err o = None -> tempfile path_Dir o filepath ≠ filepath) ->
  exists e,
    (SaveFile path_Dir o filepath data fs).2 = Some e
    /\ (SaveFile path_Dir o filepath data fs).1 !! filepath = fs !! filepath.
Proof.
  intros Hfail Hfresh. unfold SaveFile, tempfile, rand_Read in *.
  destruct (rand_err o) as [e|] eqn:Hrand; [by exists e |].
  destruct Hfail as [Hfail | Hfail]; [done |].
  specialize (Hfresh eq_refl). simpl in Hfresh.
  set (tmp := path_Dir filepath ++ "/" ++ _) in *.
  pose proof (WriteFile_fails o tmp data 384%N fs Hfail) as [e He].
  pose proof (WriteFile_other o tmp data 384%N fs filepath Hfresh) as Hother.
  destruct (ioutil_WriteFile o tmp data 384%N fs) as [fs1 err].
  simpl in *. subst err. by exists e.
Qed.

End fs_properties.

(** Witness for C7, on the sample disk: every step succeeds. *)
Lemma SaveFile_then_read_witness :
  fs.ReadFile "storage/logs"
    (fs.SaveFile sample.path_Dir (sample.oracle None fs.WriteOk None)
       "storage/logs" (bytes_of_string "new") sample.disk).1
  = Some (bytes_of_string "new").
Proof.
  apply (SaveFile_then_read sample.path_Dir
           (sample.oracle None fs.WriteOk None) "storage/logs"
           (bytes_of_string "new") sample.disk).
  vm_compute. reflexivity.
Defined.

(** Witness for C6, on the sample disk: the disk is full after one byte. *)
Lemma SaveFile_write_failure_witness :
  exists e,
    (fs.SaveFile sample.path_Dir
       (sample.oracle None (fs.WriteFailedAfter 1 "no space left on device") None)
       "storage/logs" (bytes_of_string "new") sample.disk).2 = Some e
    /\ (fs.SaveFile sample.path_Dir
          (sample.oracle None (fs.WriteFailedAfter 1 "no space left on device") None)
          "storage/logs" (bytes_of_string "new") sample.disk).1 !! "storage/logs"
       = sample.disk !! "storage/logs".
Proof.
  apply SaveFile_write_failure_keeps_target.
  - right. discriminate.
  - intros _. vm_compute. discriminate.
Defined.

(** ** Decoding a session info *)

Section protocol_properties.

Import protocol.

Variable float64 : Type.
Variable int_of_float64 : float64 -> Z.
Variable json_Unmarshal : bytes -> jsonSessionInfo float64 * option error.

#[local] Abbreviation decodeKeys := (decodeKeys float64 int_of_float64).
#[local] Abbreviation UnmarshalJSON := (UnmarshalJSON float64 int_of_float64 json_Unmarshal).
#[local] Abbreviation keys_of := (keys_of float64 int_of_float64).

(** One well-formed item adds its pair and the loop goes on. *)
Lemma decodeKeys_pair item idstr counter rest keys :
  pair_item float64 item idstr counter ->
  decodeKeys (item :: rest) keys
  = decodeKeys rest (<[NewIssuerIdentifier idstr := int_of_float64 counter]> keys).
Proof.
  intros (idmap & -> & Hid). simpl. by rewrite Hid.
Qed.

(** A list of well-formed items decodes to the map of its pairs. *)
Lemma decodeKeys_pairs items pairs keys :
  Forall2 (fun item p => pair_item float64 item p.1 p.2) items pairs ->
  decodeKeys items keys = Return (keys_of pairs keys, None).
Proof.
  intros Hall. revert keys.
  induction Hall as [| item [idstr counter] items pairs Hitem _ IH]; intros keys.
  - reflexivity.
  - rewrite (decodeKeys_pair _ _ _ _ _ Hitem). apply IH.
Qed.

(** A message whose key items are all pairs decodes without error to the map
    from each identifier to the integer of its counter. *)
Lemma UnmarshalJSON_pairs si b temp pairs :
  json_Unmarshal b = (temp, None) ->
  Forall2 (fun item p => pair_item float64 item p.1 p.2) (json_Keys _ temp) pairs ->
  UnmarshalJSON si b
  = Return ({| Jwt := json_Jwt _ temp; Nonce := json_Nonce _ temp;
               Context := json_Context _ temp; Keys := keys_of pairs ∅ |}, None).
Proof.
  intros Hb Hall. unfold protocol.UnmarshalJSON.
  rewrite Hb, (decodeKeys_pairs _ _ _ Hall). reflexivity.
Qed.

(** The three checks of the loop: an item of at least two elements that is
    not an object with a text [identifier] followed by a number makes the
    loop return the error. *)
Lemma decodeKeys_misshapen x y more rest keys :
  (forall idmap idstr counter,
     x = JObject idmap -> idmap !! "identifier" = Some (JString idstr) ->
     y <> JNumber counter) ->
  decodeKeys ((x :: y :: more) :: rest) keys = Return (keys, Some failed).
Proof.
  intros Hbad. simpl.
  destruct x as [| | | | |idmap]; try reflexivity.
  destruct (idmap !! "identifier") as [[| | |idstr| |]|] eqn:Hid; try reflexivity.
  destruct y as [| |counter| | |]; try reflexivity.
  by destruct (Hbad idmap idstr counter).
Qed.

(** Elements after the second are not looked at. *)
Lemma decodeKeys_longer idmap idstr counter more rest keys :
  idmap !! "identifier" = Some (JString idstr) ->
  decodeKeys ((JObject idmap :: JNumber counter :: more) :: rest) keys
  = decodeKeys rest (<[NewIssuerIdentifier idstr := int_of_float64 counter]> keys).
Proof.
  intros Hid. simpl. by rewrite Hid.
Qed.

(** An item with no element stops the loop with a panic. *)
Lemma decodeKeys_empty_item rest keys :
  decodeKeys ([] :: rest) keys = Panic "index out of range [0]".
Proof. reflexivity. Qed.

(** C10, where the code departs from it. A key item that holds only the
    identifier object, after any number of well-formed items, makes
    [UnmarshalJSON] panic on [item[1]]: no error is returned. *)
Theorem UnmarshalJSON_short_item_panics si b temp items pairs idmap idstr rest :
  json_Unmarshal b = (temp, None) ->
  json_Keys _ temp = (items ++ [JObject idmap] :: rest)%list ->
  Forall2 (fun item p => pair_item float64 item p.1 p.2) items pairs ->
  idmap !! "identifier" = Some (JString idstr) ->
  UnmarshalJSON si b = Panic "index out of range [1]".
Proof.
  intros Hb Hkeys Hall Hid. unfold protocol.UnmarshalJSON.
  rewrite Hb, Hkeys.
  assert (forall keys,
    decodeKeys (items ++ [JObject idmap] :: rest)%list keys
    = Panic "index out of range [1]") as Hloop.
  { clear Hkeys.
    induction Hall as [| item [idstr' counter] items pairs Hitem _ IH];
      intros keys.
    - simpl. by rewrite Hid.
    - rewrite <- app_comm_cons, (decodeKeys_pair _ _ _ _ _ Hitem). apply IH. }
  by rewrite Hloop.
Qed.

End protocol_properties.

(** Witness for C10: the message with the one-element item panics. *)
Lemma UnmarshalJSON_short_item_witness :
  protocol.UnmarshalJSON spec_float sample.int_of_float64 sample.json_Unmarshal
    sample.si0 sample.short_message
  = Panic "index out of range [1]".
Proof.
  apply (UnmarshalJSON_short_item_panics spec_float sample.int_of_float64
           sample.json_Unmarshal sample.si0 sample.short_message
           (sample.temp_of [sample.short_item]) [] []
           {[ "identifier" := protocol.JString "irma-demo.RU" ]}
           "irma-demo.RU" []).
  - reflexivity.
  - reflexivity.
  - constructor.
  - reflexivity.
Defined.

(** The message with the pair decodes to the one-entry map. *)
Example UnmarshalJSON_pair_message :
  protocol.UnmarshalJSON spec_float sample.int_of_float64 sample.json_Unmarshal
    sample.si0 sample.pair_message
  = Return ({| protocol.Jwt := ""; protocol.Nonce := None;
               protocol.Context := None;
               protocol.Keys :=
                 {[ protocol.NewIssuerIdentifier "irma-demo.RU" := 3%Z ]} |},
            None).
Proof.
  rewrite (UnmarshalJSON_pairs spec_float sample.int_of_float64
             sample.json_Unmarshal sample.si0 sample.pair_message
             (sample.temp_of [sample.pair_item])
             [("irma-demo.RU", S754_finite false 3 0)]).
  - reflexivity.
  - reflexivity.
  - repeat constructor. eexists. split; reflexivity.
Qed.

(** ** Log entries *)

Section irmaclient_properties.

Import irmaclient.

Context `{Irma}.

(** *** [SessionRequest], case by case *)

(** With a request in the cache, [SessionRequest] decodes [Request] into it
    again. *)
Lemma SessionRequest_cached entry w l v :
  request entry = Some l -> heap w !! l = Some v ->
  SessionRequest entry w
  = let w' := {| heap := <[l := (json_Unmarshal (Request entry) v).1]> (heap w);
                 unmarshals := (unmarshals w ++ [(Request entry, l)])%list |} in
    match (json_Unmarshal (Request entry) v).2 with
    | Some err => Return ((None, Some err), entry, w')
    | None => Return ((Some l, None), entry, w')
    end.
Proof.
  intros Hreq Hl. unfold SessionRequest, unmarshal_into.
  rewrite Hreq, Hl.
  destruct (json_Unmarshal (Request entry) v) as [v' [err|]]; simpl;
    by rewrite ?Hreq.
Qed.

Lemma fresh_not_allocated (w : World) : heap w !! fresh (dom (heap w)) = None.
Proof. apply not_elem_of_dom, is_fresh. Qed.

(** With an empty cache and a kind that carries a request, [SessionRequest]
    allocates the zero value of the kind's type, stores it in the cache, and
    decodes [Request] into it. *)
Lemma SessionRequest_fill entry w zero :
  request entry = None -> fresh_request (Type_ entry) = Some zero ->
  let l := fresh (dom (heap w)) in
  SessionRequest entry w
  = let w' := {| heap := <[l := (json_Unmarshal (Request entry) zero).1]> (heap w);
                 unmarshals := (unmarshals w ++ [(Request entry, l)])%list |} in
    match (json_Unmarshal (Request entry) zero).2 with
    | Some err => Return ((None, Some err), set_request entry (Some l), w')
    | None => Return ((Some l, None), set_request entry (Some l), w')
    end.
Proof.
  intros Hreq Hzero l. unfold SessionRequest, fresh_request, new in *.
  rewrite Hreq.
  repeat case_decide; simplify_eq; unfold unmarshal_into;
    cbn [heap unmarshals request set_request];
    rewrite lookup_insert_eq;
    destruct (json_Unmarshal _ _) as [v' [err|]];
    cbn [fst snd]; by rewrite insert_insert_eq.
Qed.

(** With an empty cache and any other kind there is no request, and no
    error. *)
Lemma SessionRequest_none entry w :
  request entry = None -> ~ request_bearing (Type_ entry) ->
  SessionRequest entry w = Return ((None, None), entry, w).
Proof.
  intros Hreq Hkind. unfold SessionRequest, request_bearing in *.
  rewrite Hreq. repeat case_decide; tauto.
Qed.

(** *** The views of a removal entry *)

(** C2. For an entry of kind removal, whatever its other fields hold, the
    disclosed attributes are the empty list, the issued credentials are the
    empty list, and there is no signed message; none of the three returns an
    error, and the entry and the store are left as they were. *)
Theorem removal_views entry conf w :
  Type_ entry = actionRemoval ->
  GetDisclosedCredentials entry conf w = Return (([], None), entry, w)
  /\ GetIssuedCredentials entry conf w = Return (([], None), entry, w)
  /\ GetSignedMessage entry w = Return ((None, None), entry, w).
Proof.
  intros Hkind.
  unfold GetDisclosedCredentials, GetIssuedCredentials, GetSignedMessage.
  rewrite Hkind. repeat split; by case_decide.
Qed.

(** *** The views of an entry of another kind *)

(** C9, as the code has it. For an entry whose kind is none of the four known
    ones, the issued credentials are the empty list and the signed message is
    absent, each without an error. *)
Theorem unknown_kind_views entry conf w :
  ~ known_kind (Type_ entry) ->
  GetIssuedCredentials entry conf w = Return (([], None), entry, w)
  /\ GetSignedMessage entry w = Return ((None, None), entry, w).
Proof.
  intros Hkind. unfold known_kind, request_bearing in Hkind.
  unfold GetIssuedCredentials, GetSignedMessage.
  split; case_decide; tauto.
Qed.

(** For such an entry with nothing cached, the disclosed attributes are not
    computed at all: [SessionRequest] returns no request and the call of
    [ToDisclose] on it panics. *)
Lemma unknown_kind_disclosed_panics entry conf w :
  ~ known_kind (Type_ entry) -> request entry = None ->
  GetDisclosedCredentials entry conf w = Panic nil_dereference.
Proof.
  intros Hkind Hreq. unfold known_kind in Hkind.
  unfold GetDisclosedCredentials.
  case_decide; [tauto |].
  rewrite SessionRequest_none by tauto. reflexivity.
Qed.

(** *** Creating an entry *)

(** What [createLogEntry] has done when it returns an entry: the kind and the
    cache are the session's, and [Request] is the encoding of the session's
    request (of nil when the session has none). *)
Lemma createLogEntry_inv s response now w entry :
  createLogEntry s response now w = Return (Some entry, None) ->
  Type_ entry = Action_ s
  /\ request entry = session_request s
  /\ json_Marshal (session_request s ≫= (fun l => heap w !! l))
     = (Request entry, None)
  /\ (forall l, session_request s = Some l -> is_Some (heap w !! l)).
Proof.
  unfold createLogEntry, setSessionRequest. cbn [request Type_].
  destruct (session_request s) as [l|] eqn:Hreq; cbn [mbind option_bind].
  - destruct (heap w !! l) as [v|] eqn:Hl; [| done].
    destruct (json_Marshal (Some v)) as [bts [err|]]; [done |].
    cbn [Type_ set_Request].
    repeat case_decide; destruct response; try done;
      try (destruct v; try done);
      intros [= <-]; (repeat split; [intros ? [= <-]; eauto]).
  - destruct (json_Marshal None) as [bts [err|]] eqn:Hnull; [done |].
    cbn [Type_ set_Request].
    repeat case_decide; destruct response; try done;
      intros [= <-]; (repeat split; [done]).
Qed.

(** For a signing session, moreover: the message is copied from the
    signature request and the response is stored as the disclosure. *)
Lemma createLogEntry_signing s response now w entry :
  Action_ s = ActionSigning ->
  createLogEntry s response now w = Return (Some entry, None) ->
  exists l r d,
    session_request s = Some l
    /\ heap w !! l = Some (PtrSignatureRequest r)
    /\ response = ResponseDisclosure d
    /\ SignedMessage entry = bytes_of_string (sig_Message r)
    /\ Timestamp entry = sig_Timestamp r
    /\ SignedMessageLDContext entry = irma_SignedMessageLDContext
    /\ Disclosure entry = Some d.
Proof.
  intros Hkind. unfold createLogEntry, setSessionRequest.
  cbn [request Type_]. rewrite Hkind.
  destruct (session_request s) as [l|] eqn:Hreq; cbn [mbind option_bind].
  - destruct (heap w !! l) as [v|] eqn:Hl; [| done].
    destruct (json_Marshal (Some v)) as [bts [err|]]; [done |].
    cbn [Type_ set_Request].
    repeat case_decide; try done.
    destruct v as [|r|]; try done. destruct response as [d| |]; try done.
    intros [= <-]. by exists l, r, d.
  - destruct (json_Marshal None) as [bts [err|]]; [done |].
    cbn [Type_ set_Request]. by repeat case_decide.
Qed.


Lemma removal_not_request_bearing : ~ request_bearing actionRemoval.
Proof. intros [Hk | [Hk | Hk]]; discriminate Hk. Qed.

(** C1. Constructing the record and then reconstructing the request from it
    gives back the request's disjunctions, for every session of the data
    model that [createLogEntry] accepts. From the record as it is stored
    (nothing cached), [SessionRequest] decodes [Request] into a new request
    of the kind's type, and that request has the disjunctions of the
    session's request, provided the codec round-trips them through the zero
    value. On the record as [createLogEntry] returns it, which still caches
    the session's request, the same holds when decoding replaces what the
    target held. A removal record gives back no request, as its session had
    none. *)
Theorem createLogEntry_then_SessionRequest s response now w entry :
  round_trips_from_zero ->
  session_of_data_model s w ->
  createLogEntry s response now w = Return (Some entry, None) ->
  reconstructs (session_original s w)
    (SessionRequest (set_request entry None) w)
  /\ (decode_replaces_disjunctions ->
      reconstructs (session_original s w) (SessionRequest entry w)).
Proof.
  intros Hlaw Hmodel Hcreate.
  destruct (createLogEntry_inv _ _ _ _ _ Hcreate)
    as (Htype & Hcache & Hmarshal & _).
  fold (session_original s w) in Hmarshal.
  destruct Hmodel as [[Hkind Hnone] | (l & v & zero & Hreq & Hl & Hzero & Hsame)].
  - assert (session_original s w = None) as ->.
    { unfold session_original. by rewrite Hnone. }
    assert (~ request_bearing (Type_ entry)) as Hnot.
    { rewrite Htype, Hkind. exact removal_not_request_bearing. }
    cbn [reconstructs]. split; [| intros _].
    + rewrite SessionRequest_none by done. eauto.
    + rewrite SessionRequest_none by (done || congruence). eauto.
  - assert (session_original s w = Some v) as Horiginal.
    { unfold session_original. rewrite Hreq. exact Hl. }
    rewrite Horiginal in *. cbn [reconstructs].
    destruct (Hlaw _ zero v _ Hzero Hsame Hmarshal) as (v0 & Hdecode & Hv0).
    split.
    + assert (fresh_request (Type_ (set_request entry None)) = Some zero)
        as Hzero'.
      { cbn [Type_ set_request]. by rewrite Htype. }
      rewrite (SessionRequest_fill (set_request entry None) w zero eq_refl Hzero').
      cbn [Request set_request]. rewrite Hdecode.
      eexists _, _, _, v0. split; [reflexivity |].
      split; [apply lookup_insert_eq | exact Hv0].
    + intros Hreplace.
      destruct (Hreplace _ zero v v0 Hsame Hdecode) as (v2 & Hdecode2 & Hv2).
      rewrite Hreq in Hcache.
      rewrite (SessionRequest_cached entry w l v Hcache Hl), Hdecode2.
      eexists _, _, _, v2. split; [reflexivity |].
      split; [apply lookup_insert_eq | congruence].
Qed.

(** The same for the entry as it is after a round through storage, where the
    cache is empty: when the kind of the session is the one of its request's
    type, the request that [SessionRequest] builds from [Request] has the
    disjunctions of the session's request. *)
Lemma stored_entry_SessionRequest s response now w entry l v zero :
  round_trips_from_zero ->
  session_request s = Some l -> heap w !! l = Some v ->
  fresh_request (Action_ s) = Some zero -> same_type zero v ->
  createLogEntry s response now w = Return (Some entry, None) ->
  exists l' entry' w' v',
    SessionRequest (set_request entry None) w
    = Return ((Some l', None), entry', w')
    /\ heap w' !! l' = Some v'
    /\ ToDisclose v' = ToDisclose v.
Proof.
  intros Hlaw Hreq Hl Hzero Htype Hcreate.
  destruct (createLogEntry_inv _ _ _ _ _ Hcreate) as (Hkind & _ & Hmarshal & _).
  rewrite Hreq in Hmarshal. cbn [mbind option_bind] in Hmarshal.
  rewrite Hl in Hmarshal.
  destruct (Hlaw _ zero v _ Hzero Htype Hmarshal) as (v' & Hdecode & Hsame).
  assert (fresh_request (Type_ (set_request entry None)) = Some zero) as Hzero'.
  { cbn [Type_ set_request]. by rewrite Hkind. }
  rewrite (SessionRequest_fill (set_request entry None) w zero eq_refl Hzero').
  cbn [Request set_request]. rewrite Hdecode.
  eexists _, _, _, v'. split; [reflexivity |].
  split; [apply lookup_insert_eq | exact Hsame].
Qed.

(** *** The signed message of a created entry *)

Lemma string_of_bytes_of_string (s : string) :
  string_of_bytes (bytes_of_string s) = s.
Proof. apply string_of_list_byte_of_string. Qed.

(** C5. For the entry that [createLogEntry] returns for a signing session
    with signature request [r], the signed message has the message (as a
    string and as bytes), the nonce and the context of [r]. From the entry
    as it is stored (nothing cached), [GetSignedMessage] takes the message
    from the copy made at creation and the nonce and context from the
    request it decodes from [Request], provided the codec round-trips them
    through the zero value. On the entry as [createLogEntry] returns it,
    which still caches [r], the same holds when decoding replaces what the
    target held. *)
Theorem signed_message_of_created_entry s response now w entry l r :
  signature_round_trips_from_zero ->
  Action_ s = ActionSigning ->
  session_request s = Some l -> heap w !! l = Some (PtrSignatureRequest r) ->
  createLogEntry s response now w = Return (Some entry, None) ->
  (exists sm entry' w',
     GetSignedMessage (set_request entry None) w
     = Return ((Some sm, None), entry', w')
     /\ sm_Message sm = sig_Message r
     /\ bytes_of_string (sm_Message sm) = bytes_of_string (sig_Message r)
     /\ sm_Nonce sm = sig_Nonce r
     /\ sm_Context sm = sig_Context r)
  /\ (decode_replaces_signature ->
      exists sm entry' w',
        GetSignedMessage entry w = Return ((Some sm, None), entry', w')
        /\ sm_Message sm = sig_Message r
        /\ bytes_of_string (sm_Message sm) = bytes_of_string (sig_Message r)
        /\ sm_Nonce sm = sig_Nonce r
        /\ sm_Context sm = sig_Context r).
Proof.
  intros Hlaw Hkind Hreq Hl Hcreate.
  destruct (createLogEntry_inv _ _ _ _ _ Hcreate) as (Htype & Hcache & Hmarshal & _).
  destruct (createLogEntry_signing _ _ _ _ _ Hkind Hcreate)
    as (l0 & r0 & d & Hreq0 & Hl0 & _ & Hmessage & _ & _ & Hdisclosure).
  simplify_eq.
  rewrite Hreq in Hcache, Hmarshal. cbn [mbind option_bind] in Hmarshal.
  rewrite Hl in Hmarshal. cbn [json_Marshal] in Hmarshal.
  destruct (Hlaw r _ Hmarshal) as (r0 & Hdecode & Hnonce & Hcontext).
  split.
  - assert (fresh_request (Type_ (set_request entry None))
            = Some (PtrSignatureRequest SignatureRequest_zero)) as Hzero.
    { cbn [Type_ set_request]. rewrite Htype, Hkind. reflexivity. }
    unfold GetSignedMessage. cbn [Type_ set_request]. rewrite Htype, Hkind.
    case_decide; [done |].
    rewrite (SessionRequest_fill (set_request entry None) w _ eq_refl Hzero).
    cbn [Request set_request json_Unmarshal]. rewrite Hdecode. cbn [fst snd].
    cbn [mbind option_bind heap]. rewrite lookup_insert_eq.
    cbn [Disclosure set_request]. rewrite Hdisclosure.
    eexists _, _, _. split; [reflexivity |].
    cbn [sm_Message sm_Nonce sm_Context SignedMessage set_request].
    by rewrite Hmessage, string_of_bytes_of_string.
  - intros Hreplace.
    destruct (Hreplace _ SignatureRequest_zero r r0 Hdecode)
      as (r2 & Hdecode2 & Hnonce2 & Hcontext2).
    unfold GetSignedMessage. rewrite Htype, Hkind.
    case_decide; [done |].
    rewrite (SessionRequest_cached entry w l _ Hcache Hl).
    cbn [json_Unmarshal]. rewrite Hdecode2. cbn [fst snd].
    cbn [mbind option_bind heap]. rewrite lookup_insert_eq, Hdisclosure.
    eexists _, _, _. split; [reflexivity |].
    cbn [sm_Message sm_Nonce sm_Context].
    rewrite Hmessage, string_of_bytes_of_string. repeat split; congruence.
Qed.

(** *** The cache *)

(** C3, where the code departs from it. A call of [SessionRequest] on an
    entry that has a request in its cache is one more call of
    [json.Unmarshal] on [Request], and it replaces what the cached instance
    holds by what that call leaves there. *)
Theorem SessionRequest_decodes_again entry w l v :
  request entry = Some l -> heap w !! l = Some v ->
  exists result w',
    SessionRequest entry w = Return (result, entry, w')
    /\ unmarshals w' = (unmarshals w ++ [(Request entry, l)])%list
    /\ heap w' !! l = Some (json_Unmarshal (Request entry) v).1.
Proof.
  intros Hreq Hl. rewrite (SessionRequest_cached entry w l v Hreq Hl).
  destruct (json_Unmarshal (Request entry) v) as [v' [err|]];
    eexists _, _; (split; [reflexivity |]); cbn [unmarshals heap fst];
    by rewrite lookup_insert_eq.
Qed.

Lemma request_bearing_fresh type :
  request_bearing type -> is_Some (fresh_request type).
Proof.
  unfold request_bearing, fresh_request. intros Hkind.
  repeat case_decide; eauto. tauto.
Qed.

(** C4, where the code departs from it. For an entry with nothing cached,
    of a kind that carries a request, whose [Request] does not decode:
    [SessionRequest] returns the error of [json.Unmarshal] and no request,
    as claimed; but the entry's cache is not left empty. It holds the
    location allocated before the decoding, and at that location is the
    zero value of the kind's request type as the failed decoding left it, a
    request that was never parsed from [Request]. *)
Theorem SessionRequest_malformed entry w zero err :
  request entry = None ->
  fresh_request (Type_ entry) = Some zero ->
  (json_Unmarshal (Request entry) zero).2 = Some err ->
  SessionRequest entry w
  = Return ((None, Some err),
            set_request entry (Some (fresh (dom (heap w)))),
            {| heap := <[fresh (dom (heap w))
                         := (json_Unmarshal (Request entry) zero).1]> (heap w);
               unmarshals :=
                 (unmarshals w
                  ++ [(Request entry, fresh (dom (heap w)))])%list |})
  /\ request (set_request entry (Some (fresh (dom (heap w)))))
     = Some (fresh (dom (heap w)))
  /\ heap w !! fresh (dom (heap w)) = None
  /\ same_type zero (json_Unmarshal (Request entry) zero).1.
Proof.
  intros Hreq Hzero Herr.
  rewrite (SessionRequest_fill entry w zero Hreq Hzero), Herr.
  split; [reflexivity |]. split; [reflexivity |].
  split; [apply fresh_not_allocated |].
  destruct zero as [r|r|r]; cbn [json_Unmarshal];
    [destruct (json_Unmarshal_DisclosureRequest (Request entry) r)
    |destruct (json_Unmarshal_SignatureRequest (Request entry) r)
    |destruct (json_Unmarshal_IssuanceRequest (Request entry) r)]; exact I.
Qed.

(** With a request already in the cache the error is returned as well, and
    the cache keeps its location. *)
Lemma SessionRequest_malformed_cached entry w l v err :
  request entry = Some l -> heap w !! l = Some v ->
  (json_Unmarshal (Request entry) v).2 = Some err ->
  SessionRequest entry w
  = Return ((None, Some err), entry,
            {| heap := <[l := (json_Unmarshal (Request entry) v).1]> (heap w);
               unmarshals := (unmarshals w ++ [(Request entry, l)])%list |}).
Proof.
  intros Hreq Hl Herr. by rewrite (SessionRequest_cached entry w l v Hreq Hl), Herr.
Qed.

End irmaclient_properties.

(** ** The properties on the sample codec *)

Module sample_properties.

Import irmaclient.

#[local] Existing Instance sample.irma.

Lemma sample_round_trips_disjunctions : round_trips_disjunctions.
Proof.
  intros [r|r|r] bts [= <-]; eexists; (split; [reflexivity |]); reflexivity.
Qed.

Lemma sample_round_trips_from_zero : round_trips_from_zero.
Proof.
  intros type zero v bts Hzero Htype. unfold fresh_request in Hzero.
  repeat case_decide; simplify_eq; destruct v as [r|r|r]; try done;
    intros [= <-]; eexists; (split; [reflexivity |]); reflexivity.
Qed.

Lemma sample_round_trips_signature : round_trips_signature.
Proof.
  intros r bts [= <-]. eexists. split; [reflexivity |]. split; reflexivity.
Qed.

Lemma sample_marshal_nonempty : marshal_nonempty.
Proof. intros [r|r|r] bts [= <-]; discriminate. Qed.

Lemma sample_malformed_short : malformed (bytes_of_string "d").
Proof. intros [r|r|r]; discriminate. Qed.

Lemma sample_unknown_not_known : ~ known_kind ActionUnknown.
Proof.
  unfold known_kind, request_bearing. intros [[H | [H | H]] | H]; discriminate H.
Qed.

Lemma sample_decode_replaces_disjunctions : decode_replaces_disjunctions.
Proof.
  intros data t1 t2 r1 Hsame.
  destruct t1 as [a|a|a], t2 as [b|b|b]; try done;
    cbn [json_Unmarshal json_Unmarshal_DisclosureRequest
         json_Unmarshal_SignatureRequest json_Unmarshal_IssuanceRequest
         sample.irma]; unfold sample.unmarshal;
    destruct data as [| t [| n [| c rest]]]; try done;
    destruct (Byte.eqb t _); try done;
    intros [= <-]; eexists; (split; [reflexivity |]); reflexivity.
Qed.

Lemma sample_signature_round_trips_from_zero : signature_round_trips_from_zero.
Proof.
  intros r bts [= <-]. eexists. split; [reflexivity |]. split; reflexivity.
Qed.

Lemma sample_decode_replaces_signature : decode_replaces_signature.
Proof.
  intros data t1 t2 r1.
  cbn [json_Unmarshal_SignatureRequest sample.irma]. unfold sample.unmarshal.
  destruct data as [| t [| n [| c rest]]]; try done.
  destruct (Byte.eqb t _); try done.
  intros [= <-]. eexists. split; [reflexivity |]. split; reflexivity.
Qed.


Lemma sample_signing_session_of_data_model :
  session_of_data_model sample.signing_session sample.world0.
Proof.
  right.
  exists 0%nat, (PtrSignatureRequest (H := sample.irma) sample.sigrequest),
    (PtrSignatureRequest (H := sample.irma) sample.r_zero).
  split; [reflexivity |]. split; [vm_compute; reflexivity |].
  split; [reflexivity | exact I].
Qed.


End sample_properties.

Import irmaclient.

#[local] Existing Instance sample.irma.

(** Witness for C1, on the sample signing session: from the stored entry and
    from the entry as created. *)
Lemma createLogEntry_then_SessionRequest_witness :
  reconstructs (session_original sample.signing_session sample.world0)
    (SessionRequest (set_request sample.signing_entry None) sample.world0)
  /\ reconstructs (session_original sample.signing_session sample.world0)
       (SessionRequest sample.signing_entry sample.world0).
Proof.
  destruct (createLogEntry_then_SessionRequest (H := sample.irma)
              sample.signing_session sample.response 0%Z sample.world0
              sample.signing_entry) as [Hstored Hcreated].
  - exact sample_properties.sample_round_trips_from_zero.
  - exact sample_properties.sample_signing_session_of_data_model.
  - vm_compute. reflexivity.
  - split; [exact Hstored |].
    exact (Hcreated sample_properties.sample_decode_replaces_disjunctions).
Defined.

(** Witness for C2, on a removal entry whose payload fields are all filled
    in. *)
Lemma removal_views_witness :
  GetDisclosedCredentials sample.removal_entry tt sample.cached_world
  = Return (([], None), sample.removal_entry, sample.cached_world)
  /\ GetIssuedCredentials sample.removal_entry tt sample.cached_world
     = Return (([], None), sample.removal_entry, sample.cached_world)
  /\ GetSignedMessage sample.removal_entry sample.cached_world
     = Return ((None, None), sample.removal_entry, sample.cached_world).
Proof.
  apply (removal_views (H := sample.irma) sample.removal_entry tt sample.cached_world).
  reflexivity.
Defined.

(** Witness for C3, on the entry with a cached request: the call decodes
    once more. *)
Lemma SessionRequest_decodes_again_witness :
  exists result w',
    SessionRequest sample.cached_entry sample.cached_world
    = Return (result, sample.cached_entry, w')
    /\ unmarshals w'
       = [(bytes_of_string "d*!abc", 0%nat); (bytes_of_string "d*!abc", 0%nat)]
    /\ heap w' !! 0%nat
       = Some (json_Unmarshal (bytes_of_string "d*!abc")
                 (PtrDisclosureRequest (H := sample.irma)
                    {| sample.r_nonce := "*"; sample.r_context := "!";
                       sample.r_message := "";
                       sample.r_content := bytes_of_string "abc" |})).1.
Proof.
  apply (SessionRequest_decodes_again (H := sample.irma) sample.cached_entry sample.cached_world
           0%nat).
  - reflexivity.
  - vm_compute. reflexivity.
Defined.

(** The first call on the entry from storage fills the cache; the second
    call returns the same location and has decoded a second time. *)
Example SessionRequest_twice :
  SessionRequest sample.disclosing_entry sample.empty_world
  = Return ((Some 0%nat, None), sample.cached_entry, sample.cached_world)
  /\ SessionRequest sample.cached_entry sample.cached_world
     = Return ((Some 0%nat, None), sample.cached_entry,
               {| heap := heap sample.cached_world;
                  unmarshals := [(bytes_of_string "d*!abc", 0%nat);
                                 (bytes_of_string "d*!abc", 0%nat)] |}).
Proof. split; vm_compute; reflexivity. Qed.

(** When the caller has written through the pointer in between, the second
    call puts the disjunctions of [Request] back into the cached instance. *)
Example SessionRequest_overwrites_cached :
  SessionRequest sample.cached_entry sample.edited_world
  = Return ((Some 0%nat, None), sample.cached_entry,
            {| heap := heap sample.cached_world;
               unmarshals := [(bytes_of_string "d*!abc", 0%nat);
                              (bytes_of_string "d*!abc", 0%nat)] |}).
Proof. vm_compute. reflexivity. Qed.

(** On the entry whose [Request] is cut short: after the failed call the
    cache holds an instance, the zero value that was allocated for
    decoding. *)
Lemma malformed_request_fills_cache :
  request_bearing (Type_ sample.broken_entry)
  /\ malformed (Request sample.broken_entry)
  /\ request sample.broken_entry = None
  /\ exists entry' w',
       SessionRequest sample.broken_entry sample.empty_world
       = Return ((None, Some "unexpected end of input"), entry', w')
       /\ request entry' = Some 0%nat
       /\ heap w' !! 0%nat = Some (PtrDisclosureRequest (H := sample.irma) sample.r_zero).
Proof.
  split; [by left |].
  split; [exact sample_properties.sample_malformed_short |].
  split; [reflexivity |].
  eexists _, _. split; [vm_compute; reflexivity |].
  split; [reflexivity | vm_compute; reflexivity].
Qed.

(** Witness for C4, on the same entry. *)
Lemma SessionRequest_malformed_witness :
  SessionRequest sample.broken_entry sample.empty_world
  = Return ((None, Some "unexpected end of input"),
            set_request sample.broken_entry (Some 0%nat),
            {| heap := {[ 0%nat := PtrDisclosureRequest (H := sample.irma)
                                     sample.r_zero ]};
               unmarshals := [(bytes_of_string "d", 0%nat)] |})
  /\ request (set_request sample.broken_entry (Some 0%nat)) = Some 0%nat
  /\ heap sample.empty_world !! 0%nat = None
  /\ same_type (PtrDisclosureRequest (H := sample.irma) sample.r_zero)
       (PtrDisclosureRequest (H := sample.irma) sample.r_zero).
Proof.
  exact (SessionRequest_malformed (H := sample.irma) sample.broken_entry
           sample.empty_world
           (PtrDisclosureRequest (H := sample.irma) sample.r_zero)
           "unexpected end of input" eq_refl eq_refl eq_refl).
Defined.

(** Witness for C5, on the sample signing session: from the stored entry and
    from the entry as created. *)
Lemma signed_message_of_created_entry_witness :
  (exists sm entry' w',
     GetSignedMessage (set_request sample.signing_entry None) sample.world0
     = Return ((Some sm, None), entry', w')
     /\ sm_Message sm = "hello"
     /\ bytes_of_string (sm_Message sm) = bytes_of_string "hello"
     /\ sm_Nonce sm = Some 42%Z
     /\ sm_Context sm = Some 1%Z)
  /\ (exists sm entry' w',
        GetSignedMessage sample.signing_entry sample.world0
        = Return ((Some sm, None), entry', w')
        /\ sm_Message sm = "hello"
        /\ bytes_of_string (sm_Message sm) = bytes_of_string "hello"
        /\ sm_Nonce sm = Some 42%Z
        /\ sm_Context sm = Some 1%Z).
Proof.
  destruct (signed_message_of_created_entry (H := sample.irma)
              sample.signing_session sample.response 0%Z sample.world0
              sample.signing_entry 0%nat sample.sigrequest)
    as [Hstored Hcreated].
  - exact sample_properties.sample_signature_round_trips_from_zero.
  - reflexivity.
  - reflexivity.
  - vm_compute. reflexivity.
  - vm_compute. reflexivity.
  - split; [exact Hstored |].
    exact (Hcreated sample_properties.sample_decode_replaces_signature).
Defined.

(** What [Request] holds for a removal session: the four bytes [null] when
    the session has no request; and, for a removal session that holds a
    request, which the data model does not have, the encoding of that
    request. *)
Lemma removal_entry_has_Request :
  exists entry entry',
    createLogEntry sample.removal_session ResponseOther 0%Z sample.empty_world
    = Return (Some entry, None)
    /\ Type_ entry = actionRemoval
    /\ Request entry = bytes_of_string "null"
    /\ Request entry <> []
    /\ createLogEntry sample.removal_session_with_request ResponseOther 0%Z
         sample.world0
       = Return (Some entry', None)
    /\ Type_ entry' = actionRemoval
    /\ (json_Marshal (Some (PtrSignatureRequest sample.sigrequest))).1
       = Request entry'
    /\ Request entry' <> [].
Proof.
  eexists _, _. split; [vm_compute; reflexivity |].
  split; [reflexivity |]. split; [reflexivity |]. split; [discriminate |].
  split; [vm_compute; reflexivity |].
  split; [reflexivity |]. split; [reflexivity | discriminate].
Qed.


(** Counterexample to C9 as stated: for an entry of kind [unknown] two of the
    views return their empty result and no error. *)
Lemma unknown_kind_not_rejected :
  ~ known_kind ActionUnknown
  /\ GetIssuedCredentials (sample.loaded_entry ActionUnknown []) tt
       sample.empty_world
     = Return (([], None), sample.loaded_entry ActionUnknown [],
               sample.empty_world)
  /\ GetSignedMessage (sample.loaded_entry ActionUnknown []) sample.empty_world
     = Return ((None, None), sample.loaded_entry ActionUnknown [],
               sample.empty_world).
Proof.
  split; [exact sample_properties.sample_unknown_not_known |].
  split; vm_compute; reflexivity.
Qed.

(** Witness for C9 as the code has it, on the same entry. *)
Lemma unknown_kind_views_witness :
  GetIssuedCredentials (sample.loaded_entry ActionUnknown []) tt
    sample.empty_world
  = Return (([], None), sample.loaded_entry ActionUnknown [],
            sample.empty_world)
  /\ GetSignedMessage (sample.loaded_entry ActionUnknown []) sample.empty_world
     = Return ((None, None), sample.loaded_entry ActionUnknown [],
               sample.empty_world).
Proof.
  apply (unknown_kind_views (H := sample.irma) (sample.loaded_entry ActionUnknown []) tt
           sample.empty_world).
  exact sample_properties.sample_unknown_not_known.
Defined.

(** * Further properties *)

(** ** The atomic save, continued *)

Section fs_more.

Import fs.

Variable path_Dir : string -> string.

Lemma unhex_byte (b : byte) :
  Byte.of_N (16 * aux.unhexdigit (hexdigit (N.shiftr (Byte.to_N b) 4))
             + aux.unhexdigit (hexdigit (N.land (Byte.to_N b) 15)))
  = Some b.
Proof. destruct b; reflexivity. Qed.

Lemma unhex_hex (src : bytes) : aux.unhex (hex_EncodeToString src) = src.
Proof.
  induction src as [| b rest IH]; [reflexivity |].
  cbn [hex_EncodeToString aux.unhex]. by rewrite unhex_byte, IH.
Qed.

(** The hexadecimal name determines the bytes it was made of: two different
    byte strings never get the same name. *)
Lemma hex_EncodeToString_inj (a b : bytes) :
  hex_EncodeToString a = hex_EncodeToString b -> a = b.
Proof.
  intros Heq. rewrite <- (unhex_hex a), <- (unhex_hex b). by rewrite Heq.
Qed.

Lemma hex_EncodeToString_length (src : bytes) :
  String.length (hex_EncodeToString src) = (2 * List.length src)%nat.
Proof.
  induction src as [| b rest IH]; [reflexivity |].
  cbn [hex_EncodeToString String.length List.length]. rewrite IH. lia.
Qed.

Lemma string_app_inv_head (p a b : string) :
  (p ++ a = p ++ b -> a = b)%string.
Proof.
  induction p as [| c p IH]; [done |]. cbn. intros [=]. auto.
Qed.

(** X4. Two runs of [SaveFile] on the same target in which the random source
    works use the same temporary file only if their sixteen random bytes are
    the same. *)
Theorem tempfile_determines_random_bytes o1 o2 filepath :
  rand_err o1 = None -> rand_err o2 = None ->
  tempfile path_Dir o1 filepath = tempfile path_Dir o2 filepath ->
  aux.random_bytes o1 16 = aux.random_bytes o2 16.
Proof.
  unfold tempfile, rand_Read, aux.random_bytes. intros -> -> Heq.
  apply string_app_inv_head, string_app_inv_head in Heq.
  exact (hex_EncodeToString_inj _ _ Heq).
Qed.

Lemma string_length_app (a b : string) :
  String.length (a ++ b)%string = (String.length a + String.length b)%nat.
Proof.
  induction a as [| c a IH]; [done |].
  change (S (String.length (a ++ b)%string)
          = S (String.length a + String.length b)).
  by rewrite IH.
Qed.

(** The name of the temporary file, after the directory and the slash, is 32
    characters long. *)
Lemma tempfile_name_length o filepath :
  rand_err o = None ->
  String.length (tempfile path_Dir o filepath)
  = (String.length (path_Dir filepath) + 33)%nat.
Proof.
  unfold tempfile, rand_Read. intros ->. cbn [fst].
  rewrite !string_length_app, hex_EncodeToString_length.
  rewrite length_fmap, length_seq. cbn. lia.
Qed.

(** X1. Whatever happens, [SaveFile] touches no path other than the target and
    the temporary file. *)
Theorem SaveFile_other_paths o filepath data (fs : files) other :
  other <> filepath -> other <> tempfile path_Dir o filepath ->
  (SaveFile path_Dir o filepath data fs).1 !! other = fs !! other.
Proof.
  intros Htarget Htemp. unfold SaveFile, tempfile in *.
  destruct (rand_Read o (replicate 16 x00)) as [randBytes [e|]]; [done |].
  cbn [fst] in Htemp.
  set (tmp := (path_Dir filepath ++ "/" ++ _)%string) in *.
  pose proof (WriteFile_other o tmp data 384%N fs other (not_eq_sym Htemp))
    as Hwrite.
  destruct (ioutil_WriteFile o tmp data 384%N fs) as [fs1 [e|]];
    cbn [fst] in *; [done |].
  unfold os_Rename. destruct (rename_err o); [done |].
  destruct (fs1 !! tmp); [| done]. cbn [fst].
  rewrite lookup_insert_ne, lookup_delete_ne by done. done.
Qed.

(** When the random source fails, nothing at all is written. *)
Lemma SaveFile_rand_failure o filepath data (fs : files) e :
  rand_err o = Some e ->
  SaveFile path_Dir o filepath data fs = (fs, Some e).
Proof. unfold SaveFile, rand_Read. by intros ->. Qed.

(** X2. When the write succeeds and the rename is refused, the error of the
    rename is returned, the target is as it was, and the temporary file stays
    behind with the whole payload in it. *)
Theorem SaveFile_rename_failure o filepath data (fs : files) e :
  rand_err o = None -> write_outcome o = WriteOk -> rename_err o = Some e ->
  tempfile path_Dir o filepath <> filepath ->
  (SaveFile path_Dir o filepath data fs).2 = Some e
  /\ (SaveFile path_Dir o filepath data fs).1 !! filepath = fs !! filepath
  /\ ReadFile (tempfile path_Dir o filepath)
       (SaveFile path_Dir o filepath data fs).1 = Some data.
Proof.
  intros Hrand Hwrite Hrename Hfresh.
  unfold SaveFile, tempfile, rand_Read, ioutil_WriteFile, os_Rename, ReadFile in *.
  rewrite Hrand in *. rewrite Hwrite, Hrename. cbn [fst snd] in *.
  split; [done |]. split.
  - by apply written_lookup_ne.
  - apply written_lookup.
Qed.

(** X3. After a save without error, when the temporary name was not in use
    before, the target is a file with exactly the payload and the
    permission bits 0600, whatever its permissions were before; and the
    temporary file is gone. *)
Theorem SaveFile_success_file o filepath data (fs fs' : files) :
  SaveFile path_Dir o filepath data fs = (fs', None) ->
  fs !! tempfile path_Dir o filepath = None ->
  fs' !! filepath = Some (File data 384%N)
  /\ (tempfile path_Dir o filepath <> filepath ->
      fs' !! tempfile path_Dir o filepath = None).
Proof.
  unfold SaveFile, tempfile, rand_Read, ioutil_WriteFile, os_Rename.
  destruct (rand_err o); [done |]. cbn [fst].
  set (tmp := (path_Dir filepath ++ "/" ++ _)%string).
  destruct (write_outcome o); [| done ..].
  destruct (rename_err o); [done |].
  intros Hsave Hfree. unfold written in Hsave. rewrite Hfree in Hsave.
  rewrite lookup_insert_eq in Hsave. injection Hsave as <-.
  split; [by rewrite lookup_insert_eq |].
  intros Hne. by rewrite lookup_insert_ne, lookup_delete_eq.
Qed.

(** When the temporary name was in use, the target inherits the permission
    bits of the file that had that name. *)
Lemma SaveFile_success_inherits_mode o filepath data (fs fs' : files) f :
  SaveFile path_Dir o filepath data fs = (fs', None) ->
  fs !! tempfile path_Dir o filepath = Some f ->
  fs' !! filepath = Some (File data (mode f)).
Proof.
  unfold SaveFile, tempfile, rand_Read, ioutil_WriteFile, os_Rename.
  destruct (rand_err o); [done |]. cbn [fst].
  set (tmp := (path_Dir filepath ++ "/" ++ _)%string).
  destruct (write_outcome o); [| done ..].
  destruct (rename_err o); [done |].
  intros Hsave Hused. unfold written in Hsave. rewrite Hused in Hsave.
  rewrite lookup_insert_eq in Hsave. injection Hsave as <-.
  by rewrite lookup_insert_eq.
Qed.

(** *** The existence checks *)

Variable os_Stat : string -> StatResult.
Variable os_Mkdir : string -> N -> option error.

(** X5. [AssertPathExists] returns nil exactly when [os.Stat] succeeded: neither
    a missing path nor a failed check passes. *)
Theorem AssertPathExists_nil_iff path :
  AssertPathExists os_Stat path = None <-> os_Stat path = StatOk.
Proof.
  unfold AssertPathExists, PathExists.
  destruct (os_Stat path); cbn; split; done.
Qed.

(** [EnsureDirectoryExists] gives the result of [os.Mkdir] only for a path
    that [os.Stat] reports missing; for a path that is there it returns nil,
    and when the check itself fails it returns that failure, in both cases
    whatever [os.Mkdir] would do. *)
Theorem EnsureDirectoryExists_cases path :
  EnsureDirectoryExists os_Stat os_Mkdir path
  = match os_Stat path with
    | StatOk => None
    | StatNotExist _ => os_Mkdir path 448%N
    | StatOther e => Some e
    end.
Proof.
  unfold EnsureDirectoryExists, PathExists. by destruct (os_Stat path).
Qed.

End fs_more.

(** ** Decoding a session info, continued *)

Section protocol_more.

Import protocol.

Variable float64 : Type.
Variable int_of_float64 : float64 -> Z.
Variable json_Unmarshal : bytes -> jsonSessionInfo float64 * option error.

#[local] Abbreviation decodeKeys' := (decodeKeys float64 int_of_float64).
#[local] Abbreviation UnmarshalJSON' :=
  (UnmarshalJSON float64 int_of_float64 json_Unmarshal).
#[local] Abbreviation keys_of' := (keys_of float64 int_of_float64).
#[local] Abbreviation pairs_of items pairs :=
  (Forall2 (fun item (p : string * float64) => pair_item float64 item p.1 p.2)
     items pairs).

Lemma keys_of_app pairs pairs' keys :
  keys_of' (pairs ++ pairs')%list keys = keys_of' pairs' (keys_of' pairs keys).
Proof. apply foldl_app. Qed.

(** An identifier that no pair mentions is left as it was. *)
Lemma keys_of_lookup_absent pairs keys id :
  Forall (fun p : string * float64 => p.1 <> id) pairs ->
  keys_of' pairs keys !! NewIssuerIdentifier id = keys !! NewIssuerIdentifier id.
Proof.
  intros Hall. revert keys.
  induction Hall as [| [id' c] pairs Hne _ IH]; intros keys; [done |].
  change (keys_of' pairs (<[NewIssuerIdentifier id' := int_of_float64 c]> keys)
            !! NewIssuerIdentifier id = keys !! NewIssuerIdentifier id).
  rewrite IH, lookup_insert_ne; [done |]. cbn in Hne. congruence.
Qed.

(** The last pair for an identifier gives its value. *)
Lemma keys_of_lookup_last earlier later keys id counter :
  Forall (fun p : string * float64 => p.1 <> id) later ->
  keys_of' (earlier ++ (id, counter) :: later)%list keys
    !! NewIssuerIdentifier id
  = Some (int_of_float64 counter).
Proof.
  intros Hlater. rewrite keys_of_app.
  change (keys_of' ((id, counter) :: later) ?k)
    with (keys_of' later (<[NewIssuerIdentifier id := int_of_float64 counter]> k)).
  by rewrite keys_of_lookup_absent, lookup_insert_eq.
Qed.

(** X7. When the same identifier comes in several items of a well-formed list,
    the decoded map has the counter of the last of them. *)
Theorem UnmarshalJSON_last_pair_wins si b temp earlier later id counter :
  json_Unmarshal b = (temp, None) ->
  pairs_of (json_Keys _ temp) (earlier ++ (id, counter) :: later)%list ->
  Forall (fun p : string * float64 => p.1 <> id) later ->
  exists si',
    UnmarshalJSON' si b = Return (si', None)
    /\ Keys si' !! NewIssuerIdentifier id = Some (int_of_float64 counter).
Proof.
  intros Hb Hall Hlater.
  rewrite (UnmarshalJSON_pairs _ _ _ si b temp _ Hb Hall).
  eexists. split; [reflexivity |]. cbn [Keys].
  by apply keys_of_lookup_last.
Qed.

(** X8. The decoded map has no entry for an identifier that is in no item, even
    when the receiver had one before the call: the keys are replaced, not
    merged. *)
Theorem UnmarshalJSON_absent_identifier si b temp pairs id :
  json_Unmarshal b = (temp, None) ->
  pairs_of (json_Keys _ temp) pairs ->
  Forall (fun p : string * float64 => p.1 <> id) pairs ->
  exists si',
    UnmarshalJSON' si b = Return (si', None)
    /\ Keys si' !! NewIssuerIdentifier id = None.
Proof.
  intros Hb Hall Hnone.
  rewrite (UnmarshalJSON_pairs _ _ _ si b temp _ Hb Hall).
  eexists. split; [reflexivity |]. cbn [Keys].
  by rewrite keys_of_lookup_absent.
Qed.

(** X9. The first item that has two elements or more but is not an identifier
    object followed by a number makes [UnmarshalJSON] return its error. By
    then the receiver has been written: it holds the message's jwt, nonce
    and context and the keys of the items before the bad one. *)
Theorem UnmarshalJSON_misshapen_item si b temp items pairs x y more rest :
  json_Unmarshal b = (temp, None) ->
  json_Keys _ temp = (items ++ (x :: y :: more) :: rest)%list ->
  pairs_of items pairs ->
  (forall idmap idstr counter,
     x = JObject idmap -> idmap !! "identifier" = Some (JString idstr) ->
     y <> JNumber counter) ->
  UnmarshalJSON' si b
  = Return ({| Jwt := json_Jwt _ temp; Nonce := json_Nonce _ temp;
               Context := json_Context _ temp; Keys := keys_of' pairs ∅ |},
            Some failed).
Proof.
  intros Hb Hkeys Hall Hbad. unfold UnmarshalJSON. rewrite Hb, Hkeys.
  assert (forall keys,
    decodeKeys' (items ++ (x :: y :: more) :: rest)%list keys
    = Return (keys_of' pairs keys, Some failed)) as Hloop.
  { clear Hkeys.
    induction Hall as [| item [idstr counter] items pairs Hitem _ IH];
      intros keys.
    - by apply decodeKeys_misshapen.
    - rewrite <- app_comm_cons, (decodeKeys_pair _ _ _ _ _ _ _ Hitem).
      apply IH. }
  by rewrite Hloop.
Qed.

(** X10. The loop looks at the first two elements of an item and at nothing
    after them. *)
Theorem decodeKeys_first_two items keys :
  decodeKeys float64 int_of_float64 items keys
  = decodeKeys float64 int_of_float64 (take 2 <$> items) keys.
Proof.
  revert keys. induction items as [| item items IH]; intros keys; [done |].
  cbn [fmap list_fmap decodeKeys].
  destruct item as [| x [| y more]];
    cbn [take lookup list_lookup decodeKeys]; try done.
  destruct x as [| | | | |idmap]; try done.
  destruct (idmap !! "identifier") as [[| | |idstr| |]|]; try done.
  destruct y; auto.
Qed.

(** When [json.Unmarshal] rejects the message, the receiver is left as it
    was. *)
Lemma UnmarshalJSON_invalid si b temp e :
  json_Unmarshal b = (temp, Some e) ->
  UnmarshalJSON' si b = Return (si, Some e).
Proof. intros Hb. unfold UnmarshalJSON. by rewrite Hb. Qed.

(** X6. A message whose key items are all pairs of an identifier object and a
    number decodes without error: the receiver gets the message's jwt, nonce
    and context, and as keys the map from each issuer identifier to the
    integer of its counter. *)
Theorem UnmarshalJSON_well_formed si b temp pairs :
  json_Unmarshal b = (temp, None) ->
  pairs_of (json_Keys _ temp) pairs ->
  UnmarshalJSON' si b
  = Return ({| Jwt := json_Jwt _ temp; Nonce := json_Nonce _ temp;
               Context := json_Context _ temp; Keys := keys_of' pairs ∅ |},
            None).
Proof.
  intros Hb Hall. unfold UnmarshalJSON.
  rewrite Hb, (decodeKeys_pairs _ _ _ _ _ Hall). reflexivity.
Qed.

End protocol_more.

(** ** Log entries, continued *)

Section irmaclient_more.

Import irmaclient.

Context `{Irma}.

(** *** What [createLogEntry] refuses *)

Lemma setSessionRequest_encodes s w bts entry :
  encodes s w bts -> request entry = session_request s ->
  setSessionRequest entry w = Return (None, set_Request entry bts).
Proof.
  intros [Halloc Hmarshal] Hreq. unfold setSessionRequest. rewrite Hreq.
  destruct (session_request s) as [l|]; cbn [mbind option_bind] in Hmarshal.
  - destruct (Halloc l eq_refl) as [v Hl]. rewrite Hl in *. by rewrite Hmarshal.
  - by rewrite Hmarshal.
Qed.

(** X11. A session whose kind is none of the four known ones is refused with the
    error "Invalid log type", once its request has been encoded. *)
Theorem createLogEntry_invalid_kind s response now w bts :
  ~ known_kind (Action_ s) -> encodes s w bts ->
  createLogEntry s response now w = Return (None, Some "Invalid log type").
Proof.
  intros Hkind Henc. unfold known_kind, request_bearing in Hkind.
  unfold createLogEntry.
  rewrite (setSessionRequest_encodes s w bts) by done.
  cbn [Type_ set_Request]. repeat case_decide; tauto.
Qed.

(** X12. When the session's request cannot be encoded, [createLogEntry] returns
    the error of [json.Marshal] and no entry, whatever the kind and the
    response are: the encoding comes before every other check. *)
Theorem createLogEntry_marshal_error s response now w l v bts e :
  session_request s = Some l -> heap w !! l = Some v ->
  json_Marshal (Some v) = (bts, Some e) ->
  createLogEntry s response now w = Return (None, Some e).
Proof.
  intros Hreq Hl Hmarshal. unfold createLogEntry, setSessionRequest.
  cbn [request]. by rewrite Hreq, Hl, Hmarshal.
Qed.

(** X13. A response of the wrong type for the kind is not an error but a panic:
    a disclosing or signing session needs a disclosure, an issuing session
    an issue commitment message. *)
Theorem createLogEntry_mismatch_panics s response now w bts :
  encodes s w bts ->
  ((Action_ s = ActionDisclosing \/ Action_ s = ActionSigning)
   /\ (forall d, response <> ResponseDisclosure d))
  \/ (Action_ s = ActionIssuing
      /\ (forall m, response <> ResponseIssueCommitment m)) ->
  exists reason, createLogEntry s response now w = Panic reason.
Proof.
  intros Henc Hmismatch. unfold createLogEntry.
  rewrite (setSessionRequest_encodes s w bts) by done.
  cbn [Type_ set_Request].
  destruct Hmismatch as [[[-> | ->] Hno] | [-> Hno]];
    repeat case_decide; try done;
    try destruct (session_request s ≫= _) as [[| |]|];
    destruct response; try (by eexists); by edestruct Hno.
Qed.

(** *** What a created entry holds *)

Lemma createLogEntry_fields s response now w entry :
  createLogEntry s response now w = Return (Some entry, None) ->
  Time entry = now /\ Version entry = session_Version s /\ Removed entry = ∅
  /\ ((Type_ entry = ActionIssuing
       /\ (exists m, response = ResponseIssueCommitment m
                     /\ IssueCommitment entry = Some m)
       /\ Disclosure entry = None /\ SignedMessage entry = [])
      \/ (Type_ entry = ActionDisclosing
          /\ (exists d, response = ResponseDisclosure d
                        /\ Disclosure entry = Some d)
          /\ IssueCommitment entry = None /\ SignedMessage entry = [])
      \/ (Type_ entry = ActionSigning
          /\ (exists d, response = ResponseDisclosure d
                        /\ Disclosure entry = Some d)
          /\ IssueCommitment entry = None)
      \/ (Type_ entry = actionRemoval
          /\ Disclosure entry = None /\ IssueCommitment entry = None
          /\ SignedMessage entry = [])).
Proof.
  unfold createLogEntry, setSessionRequest. cbn [request Type_].
  destruct (session_request s) as [l|]; cbn [mbind option_bind].
  - destruct (heap w !! l) as [v|]; [| done].
    destruct (json_Marshal (Some v)) as [bts [err|]]; [done |].
    cbn [Type_ set_Request].
    repeat case_decide; destruct response; try done;
      try (destruct v; try done); intros [= <-]; cbn;
      repeat split; eauto 10.
  - destruct (json_Marshal None) as [bts [err|]]; [done |].
    cbn [Type_ set_Request].
    repeat case_decide; destruct response; try done; intros [= <-]; cbn;
      repeat split; eauto 10.
Qed.


(** *** The cache, continued *)

(** X15. [SessionRequest] writes to one location only, the cached request's or
    the newly allocated one: every other allocated request is as it was. *)
Theorem SessionRequest_other_locations entry w result entry' w' l' :
  SessionRequest entry w = Return (result, entry', w') ->
  is_Some (heap w !! l') -> request entry <> Some l' ->
  heap w' !! l' = heap w !! l'.
Proof.
  intros Hcall [v' Hl'] Hne.
  destruct (request entry) as [l|] eqn:Hreq.
  - destruct (heap w !! l) as [v|] eqn:Hl.
    + rewrite (SessionRequest_cached entry w l v Hreq Hl) in Hcall.
      destruct (json_Unmarshal (Request entry) v).2;
        injection Hcall as <- <- <-; cbn [heap];
        apply lookup_insert_ne; congruence.
    + unfold SessionRequest, unmarshal_into in Hcall.
      by rewrite Hreq, Hl in Hcall.
  - destruct (fresh_request (Type_ entry)) as [zero|] eqn:Hzero.
    + rewrite (SessionRequest_fill entry w zero Hreq Hzero) in Hcall.
      assert (fresh (dom (heap w)) <> l') as Hfresh.
      { intros <-. by rewrite fresh_not_allocated in Hl'. }
      destruct (json_Unmarshal (Request entry) zero).2;
        injection Hcall as <- <- <-; cbn [heap];
        by apply lookup_insert_ne.
    + rewrite SessionRequest_none in Hcall; [by injection Hcall as <- <- <- | done |].
      unfold fresh_request, request_bearing in *.
      repeat case_decide; try done. tauto.
Qed.

(** X16. Once [SessionRequest] has returned a request, the entry keeps it: a
    further call on the entry returns that same location or an error, never
    another request and never nil without an error. *)
Theorem SessionRequest_same_instance entry w l entry' w' :
  SessionRequest entry w = Return ((Some l, None), entry', w') ->
  request entry' = Some l
  /\ exists result w'',
       SessionRequest entry' w' = Return (result, entry', w'')
       /\ (result = (Some l, None) \/ exists e, result = (None, Some e)).
Proof.
  intros Hcall.
  assert (request entry' = Some l /\ is_Some (heap w' !! l)) as [Hreq' [v' Hl']].
  { destruct (request entry) as [l0|] eqn:Hreq.
    - destruct (heap w !! l0) as [v|] eqn:Hl.
      + rewrite (SessionRequest_cached entry w l0 v Hreq Hl) in Hcall.
        destruct (json_Unmarshal (Request entry) v).2; [done |].
        injection Hcall as <- <- <-. cbn [heap].
        rewrite lookup_insert_eq. eauto.
      + unfold SessionRequest, unmarshal_into in Hcall.
        by rewrite Hreq, Hl in Hcall.
    - destruct (fresh_request (Type_ entry)) as [zero|] eqn:Hzero.
      + rewrite (SessionRequest_fill entry w zero Hreq Hzero) in Hcall.
        destruct (json_Unmarshal (Request entry) zero).2; [done |].
        injection Hcall as <- <- <-. cbn [heap request set_request].
        rewrite lookup_insert_eq. eauto.
      + rewrite SessionRequest_none in Hcall; [done | done |].
        unfold fresh_request, request_bearing in *.
        repeat case_decide; try done. tauto. }
  split; [done |].
  rewrite (SessionRequest_cached entry' w' l v' Hreq' Hl').
  destruct (json_Unmarshal (Request entry') v').2 as [e|]; eauto 10.
Qed.

(** X17. For an entry with nothing cached whose kind carries no request (removal,
    unknown, anything else), [SessionRequest] returns neither a request nor
    an error, and changes neither the entry nor the store: [Request] is not
    looked at. *)
Theorem SessionRequest_no_request entry w :
  request entry = None -> ~ request_bearing (Type_ entry) ->
  SessionRequest entry w = Return ((None, None), entry, w).
Proof.
  intros Hreq Hkind. unfold SessionRequest, request_bearing in *.
  rewrite Hreq. repeat case_decide; tauto.
Qed.

(** *** The views, continued *)

(** X18. A [Request] that does not decode makes every view that needs the request
    return the decoding error: the disclosed attributes for the three kinds
    with a request, the issued credentials for issuing, the signed message
    for signing. *)
Theorem views_return_decode_error entry conf w :
  request_bearing (Type_ entry) ->
  cache_allocated entry w ->
  malformed (Request entry) ->
  exists err entry' w',
    GetDisclosedCredentials entry conf w = Return (([], Some err), entry', w')
    /\ (Type_ entry = ActionIssuing ->
        GetIssuedCredentials entry conf w = Return (([], Some err), entry', w'))
    /\ (Type_ entry = ActionSigning ->
        GetSignedMessage entry w = Return ((None, Some err), entry', w')).
Proof.
  intros Hkind Halloc Hbad.
  assert (exists err entry' w',
            SessionRequest entry w = Return ((None, Some err), entry', w'))
    as (err & entry' & w' & Hcall).
  { destruct (request entry) as [l|] eqn:Hreq.
    - destruct (Halloc l Hreq) as [v Hl].
      rewrite (SessionRequest_cached entry w l v Hreq Hl).
      specialize (Hbad v).
      destruct (json_Unmarshal (Request entry) v).2; [eauto | done].
    - destruct (request_bearing_fresh _ Hkind) as [zero Hzero].
      rewrite (SessionRequest_fill entry w zero Hreq Hzero).
      specialize (Hbad zero).
      destruct (json_Unmarshal (Request entry) zero).2; [eauto | done]. }
  exists err, entry', w'.
  unfold GetDisclosedCredentials, GetIssuedCredentials, GetSignedMessage.
  rewrite Hcall. unfold request_bearing in Hkind.
  repeat split; intros; repeat case_decide; try done;
    destruct Hkind as [Hk | [Hk | Hk]]; by rewrite Hk in *.
Qed.

(** X19. The disclosed attributes of a created entry are those that
    [DisclosedAttributes] finds in the stored proofs for the disjunctions of
    the session's request: in the response itself for disclosing and signing,
    in the disclosure inside the issue commitment message for issuing. *)
Theorem created_entry_disclosed s response now w entry l v conf :
  round_trips_disjunctions ->
  session_request s = Some l -> heap w !! l = Some v ->
  createLogEntry s response now w = Return (Some entry, None) ->
  Action_ s <> actionRemoval ->
  exists w',
    GetDisclosedCredentials entry conf w
    = Return (match response with
              | ResponseDisclosure d =>
                  DisclosedAttributes d conf (ToDisclose v)
              | ResponseIssueCommitment m =>
                  DisclosedAttributes (IssueCommitmentMessage_Disclosure m)
                    conf (ToDisclose v)
              | ResponseOther => ([], None)
              end, entry, w').
Proof.
  intros Hlaw Hreq Hl Hcreate Hkind.
  destruct (createLogEntry_inv _ _ _ _ _ Hcreate)
    as (Htype & Hcache & Hmarshal & _).
  rewrite Hreq in Hcache, Hmarshal. cbn [mbind option_bind] in Hmarshal.
  rewrite Hl in Hmarshal.
  destruct (Hlaw v _ Hmarshal) as (v' & Hdecode & Hsame).
  destruct (createLogEntry_fields _ _ _ _ _ Hcreate)
    as (_ & _ & _ & Hpayload).
  unfold GetDisclosedCredentials.
  rewrite (SessionRequest_cached entry w l v Hcache Hl), Hdecode.
  cbn [fst snd mbind option_bind heap]. rewrite lookup_insert_eq, Hsame, Htype.
  case_decide; [done |]. eexists.
  destruct Hpayload
    as [(Hk & (m & -> & Hm) & _) | [(Hk & (d & -> & Hd) & _)
        | [(Hk & (d & -> & Hd) & _) | (Hk & _)]]];
    rewrite Htype in Hk; rewrite Hk in *; repeat case_decide; try done.
  - by rewrite Hm.
  - by rewrite Hd.
  - by rewrite Hd.
Qed.

(** X20. Beside message, nonce and context, the signed message of a created
    signing entry has the proofs of the response as its signature, the
    constant of package irma as its context tag, and the timestamp that the
    signature request had when the entry was created. *)
Theorem signed_message_provenance s d now w entry l r :
  round_trips_signature ->
  Action_ s = ActionSigning ->
  session_request s = Some l -> heap w !! l = Some (PtrSignatureRequest r) ->
  createLogEntry s (ResponseDisclosure d) now w = Return (Some entry, None) ->
  exists sm entry' w',
    GetSignedMessage entry w = Return ((Some sm, None), entry', w')
    /\ sm_Signature sm = Disclosure_Proofs d
    /\ sm_LDContext sm = irma_SignedMessageLDContext
    /\ sm_Timestamp sm = sig_Timestamp r.
Proof.
  intros Hlaw Hkind Hreq Hl Hcreate.
  destruct (createLogEntry_inv _ _ _ _ _ Hcreate) as (Htype & Hcache & Hmarshal & _).
  destruct (createLogEntry_signing _ _ _ _ _ Hkind Hcreate)
    as (l0 & r0 & d0 & Hreq0 & Hl0 & Hd & _ & Htime & Hld & Hdisclosure).
  simplify_eq.
  rewrite Hreq in Hcache, Hmarshal. cbn [mbind option_bind] in Hmarshal.
  rewrite Hl in Hmarshal. cbn [json_Marshal] in Hmarshal.
  destruct (Hlaw r _ Hmarshal) as (r' & Hdecode & _).
  unfold GetSignedMessage. rewrite Htype, Hkind.
  case_decide; [done |].
  rewrite (SessionRequest_cached entry w l _ Hcache Hl).
  cbn [json_Unmarshal]. rewrite Hdecode. cbn [fst snd].
  cbn [mbind option_bind heap]. rewrite lookup_insert_eq, Hdisclosure.
  eexists _, _, _. split; [reflexivity |].
  cbn [sm_Signature sm_LDContext sm_Timestamp]. by rewrite Htime, Hld.
Qed.

(** X21. The issued credentials of a created issuing entry are computed by
    [GetCredentialInfoList] from the request as decoded again from [Request]
    and from the protocol version of the session. *)
Theorem created_entry_issued s response now w entry l r r' conf :
  Action_ s = ActionIssuing ->
  session_request s = Some l -> heap w !! l = Some (PtrIssuanceRequest r) ->
  createLogEntry s response now w = Return (Some entry, None) ->
  json_Unmarshal_IssuanceRequest (Request entry) r = (r', None) ->
  exists w',
    GetIssuedCredentials entry conf w
    = Return (GetCredentialInfoList r' conf (session_Version s), entry, w').
Proof.
  intros Hkind Hreq Hl Hcreate Hdecode.
  destruct (createLogEntry_inv _ _ _ _ _ Hcreate) as (Htype & Hcache & _ & _).
  destruct (createLogEntry_fields _ _ _ _ _ Hcreate) as (_ & Hversion & _).
  rewrite Hreq in Hcache.
  unfold GetIssuedCredentials. rewrite Htype, Hkind.
  case_decide; [done |].
  rewrite (SessionRequest_cached entry w l _ Hcache Hl).
  cbn [json_Unmarshal]. rewrite Hdecode. cbn [fst snd].
  cbn [mbind option_bind heap]. rewrite lookup_insert_eq, Hversion. eauto.
Qed.

Lemma json_Unmarshal_same_type data v :
  same_type v (json_Unmarshal data v).1.
Proof.
  destruct v as [r|r|r]; cbn [json_Unmarshal];
    [destruct (json_Unmarshal_DisclosureRequest data r)
    |destruct (json_Unmarshal_SignatureRequest data r)
    |destruct (json_Unmarshal_IssuanceRequest data r)]; exact I.
Qed.

(** X22. [createLogEntry] does not look at the type of the request of an issuing
    session. When it is not an issuance request and its encoding decodes,
    the entry is created, and [GetIssuedCredentials] on it panics in the
    conversion to [*irma.IssuanceRequest]. *)
Theorem issuing_entry_other_request_panics s response now w entry l v conf :
  Action_ s = ActionIssuing ->
  session_request s = Some l -> heap w !! l = Some v ->
  (forall r, v <> PtrIssuanceRequest r) ->
  createLogEntry s response now w = Return (Some entry, None) ->
  (json_Unmarshal (Request entry) v).2 = None ->
  GetIssuedCredentials entry conf w
  = Panic "interface conversion: not *irma.IssuanceRequest".
Proof.
  intros Hkind Hreq Hl Hother Hcreate Hdecode.
  destruct (createLogEntry_inv _ _ _ _ _ Hcreate) as (Htype & Hcache & _ & _).
  rewrite Hreq in Hcache.
  unfold GetIssuedCredentials. rewrite Htype, Hkind.
  case_decide; [done |].
  rewrite (SessionRequest_cached entry w l _ Hcache Hl), Hdecode.
  cbn [mbind option_bind heap]. rewrite lookup_insert_eq.
  pose proof (json_Unmarshal_same_type (Request entry) v) as Hsame.
  destruct (json_Unmarshal (Request entry) v).1 as [r'|r'|r']; try done.
  destruct v as [r|r|r]; try done. by destruct (Hother r).
Qed.

(** X23. A signing entry from storage that has no disclosure: when its [Request]
    decodes, [GetSignedMessage] panics on [entry.Disclosure.Proofs]. *)
Theorem signing_entry_without_disclosure_panics entry w :
  Type_ entry = ActionSigning -> request entry = None ->
  Disclosure entry = None ->
  (json_Unmarshal (Request entry) (PtrSignatureRequest SignatureRequest_zero)).2
  = None ->
  GetSignedMessage entry w = Panic nil_dereference.
Proof.
  intros Hkind Hreq Hdisclosure Hdecode.
  assert (fresh_request (Type_ entry)
          = Some (PtrSignatureRequest SignatureRequest_zero)) as Hzero.
  { rewrite Hkind. reflexivity. }
  unfold GetSignedMessage. case_decide; [done |].
  rewrite (SessionRequest_fill entry w _ Hreq Hzero), Hdecode.
  cbn [mbind option_bind heap]. rewrite lookup_insert_eq.
  cbn [json_Unmarshal] in *.
  destruct (json_Unmarshal_SignatureRequest (Request entry) SignatureRequest_zero).
  cbn [fst]. cbn [Disclosure set_request]. by rewrite Hdisclosure.
Qed.

End irmaclient_more.

(** ** The further properties on the samples *)

(** Witness for X1. *)
Lemma SaveFile_other_paths_witness :
  (fs.SaveFile sample.path_Dir (sample.oracle None fs.WriteOk None)
     "storage/logs" (bytes_of_string "new") aux.disk2).1 !! "storage/attrs"
  = aux.disk2 !! "storage/attrs".
Proof.
  apply SaveFile_other_paths.
  - discriminate.
  - vm_compute. discriminate.
Defined.

(** Witness for X2. *)
Lemma SaveFile_rename_failure_witness :
  (fs.SaveFile sample.path_Dir
     (sample.oracle None fs.WriteOk (Some "permission denied"))
     "storage/logs" (bytes_of_string "new") aux.disk2).2
  = Some "permission denied"
  /\ (fs.SaveFile sample.path_Dir
        (sample.oracle None fs.WriteOk (Some "permission denied"))
        "storage/logs" (bytes_of_string "new") aux.disk2).1 !! "storage/logs"
     = aux.disk2 !! "storage/logs"
  /\ fs.ReadFile
       (fs.tempfile sample.path_Dir
          (sample.oracle None fs.WriteOk (Some "permission denied"))
          "storage/logs")
       (fs.SaveFile sample.path_Dir
          (sample.oracle None fs.WriteOk (Some "permission denied"))
          "storage/logs" (bytes_of_string "new") aux.disk2).1
     = Some (bytes_of_string "new").
Proof.
  apply SaveFile_rename_failure.
  - reflexivity.
  - reflexivity.
  - reflexivity.
  - vm_compute. discriminate.
Defined.

(** Witness for X3. *)
Lemma SaveFile_success_file_witness :
  (fs.SaveFile sample.path_Dir (sample.oracle None fs.WriteOk None)
     "storage/logs" (bytes_of_string "new") aux.disk2).1 !! "storage/logs"
  = Some (fs.File (bytes_of_string "new") 384%N)
  /\ (fs.tempfile sample.path_Dir (sample.oracle None fs.WriteOk None)
        "storage/logs" <> "storage/logs" ->
      (fs.SaveFile sample.path_Dir (sample.oracle None fs.WriteOk None)
         "storage/logs" (bytes_of_string "new") aux.disk2).1
        !! fs.tempfile sample.path_Dir (sample.oracle None fs.WriteOk None)
             "storage/logs"
      = None).
Proof.
  apply (SaveFile_success_file sample.path_Dir
           (sample.oracle None fs.WriteOk None) "storage/logs"
           (bytes_of_string "new") aux.disk2).
  - vm_compute. reflexivity.
  - vm_compute. reflexivity.
Defined.

(** Witness for X4. *)
Lemma tempfile_determines_random_bytes_witness :
  aux.random_bytes (sample.oracle None fs.WriteOk None) 16
  = aux.random_bytes
      (sample.oracle None (fs.WriteFailedOpen "read-only file system") None) 16.
Proof.
  apply (tempfile_determines_random_bytes sample.path_Dir
           (sample.oracle None fs.WriteOk None)
           (sample.oracle None (fs.WriteFailedOpen "read-only file system") None)
           "storage/logs").
  - reflexivity.
  - reflexivity.
  - reflexivity.
Defined.

(** Witness for X6. *)
Lemma UnmarshalJSON_well_formed_witness :
  protocol.UnmarshalJSON spec_float sample.int_of_float64 sample.json_Unmarshal
    sample.si0 sample.pair_message
  = Return ({| protocol.Jwt := ""; protocol.Nonce := None;
               protocol.Context := None;
               protocol.Keys :=
                 protocol.keys_of spec_float sample.int_of_float64
                   [("irma-demo.RU", S754_finite false 3 0)] ∅ |}, None).
Proof.
  apply (UnmarshalJSON_well_formed spec_float sample.int_of_float64
           sample.json_Unmarshal sample.si0 sample.pair_message
           (sample.temp_of [sample.pair_item])
           [("irma-demo.RU", S754_finite false 3 0)]).
  - reflexivity.
  - repeat constructor. eexists. split; reflexivity.
Defined.

(** Witness for X7. *)
Lemma UnmarshalJSON_last_pair_wins_witness :
  exists si',
    protocol.UnmarshalJSON spec_float sample.int_of_float64
      (aux.decoder_for aux.repeated_message (sample.temp_of aux.repeated_keys))
      sample.si0 aux.repeated_message
    = Return (si', None)
    /\ protocol.Keys si' !! protocol.NewIssuerIdentifier "irma-demo.RU"
       = Some 4%Z.
Proof.
  apply (UnmarshalJSON_last_pair_wins spec_float sample.int_of_float64
           (aux.decoder_for aux.repeated_message (sample.temp_of aux.repeated_keys))
           sample.si0 aux.repeated_message (sample.temp_of aux.repeated_keys)
           [("irma-demo.RU", S754_finite false 3 0)] []
           "irma-demo.RU" (S754_finite false 4 0)).
  - vm_compute. reflexivity.
  - repeat constructor; eexists; split; reflexivity.
  - constructor.
Defined.

(** Witness for X8. *)
Lemma UnmarshalJSON_absent_identifier_witness :
  exists si',
    protocol.UnmarshalJSON spec_float sample.int_of_float64 sample.json_Unmarshal
      aux.si_with_key sample.pair_message
    = Return (si', None)
    /\ protocol.Keys si' !! protocol.NewIssuerIdentifier "irma-demo.MijnOverheid"
       = None.
Proof.
  apply (UnmarshalJSON_absent_identifier spec_float sample.int_of_float64
           sample.json_Unmarshal aux.si_with_key sample.pair_message
           (sample.temp_of [sample.pair_item])
           [("irma-demo.RU", S754_finite false 3 0)] "irma-demo.MijnOverheid").
  - reflexivity.
  - repeat constructor. eexists. split; reflexivity.
  - repeat constructor. discriminate.
Defined.

(** Witness for X9. *)
Lemma UnmarshalJSON_misshapen_item_witness :
  protocol.UnmarshalJSON spec_float sample.int_of_float64
    (aux.decoder_for aux.text_counter_message aux.text_counter_temp)
    aux.si_with_key aux.text_counter_message
  = Return ({| protocol.Jwt := "token"; protocol.Nonce := Some 5%Z;
               protocol.Context := None;
               protocol.Keys :=
                 protocol.keys_of spec_float sample.int_of_float64
                   [("irma-demo.RU", S754_finite false 3 0)] ∅ |},
            Some protocol.failed).
Proof.
  apply (UnmarshalJSON_misshapen_item spec_float sample.int_of_float64
           (aux.decoder_for aux.text_counter_message aux.text_counter_temp)
           aux.si_with_key aux.text_counter_message aux.text_counter_temp
           [[aux.identifier_object "irma-demo.RU"; aux.number 3]]
           [("irma-demo.RU", S754_finite false 3 0)]
           (aux.identifier_object "irma-demo.MijnOverheid")
           (protocol.JString "x") [] []).
  - vm_compute. reflexivity.
  - reflexivity.
  - repeat constructor. eexists. split; reflexivity.
  - intros idmap idstr counter _ _. discriminate.
Defined.

(** Witness for X11. *)
Lemma createLogEntry_invalid_kind_witness :
  createLogEntry aux.unknown_session sample.response 0%Z sample.empty_world
  = Return (None, Some "Invalid log type").
Proof.
  apply (createLogEntry_invalid_kind (H := sample.irma) aux.unknown_session
           sample.response 0%Z sample.empty_world (bytes_of_string "null")).
  - exact sample_properties.sample_unknown_not_known.
  - split; [intros l Hl; discriminate Hl | reflexivity].
Defined.

(** Witness for X12. *)
Lemma createLogEntry_marshal_error_witness :
  createLogEntry aux.unencodable_session
    (ResponseIssueCommitment (H := aux.irma_unencodable)
       (bytes_of_string "commitments"))
    0%Z aux.unencodable_world
  = Return (None, Some "json: unsupported value").
Proof.
  apply (createLogEntry_marshal_error (H := aux.irma_unencodable)
           aux.unencodable_session _ 0%Z aux.unencodable_world 1%nat
           (PtrIssuanceRequest (H := aux.irma_unencodable) aux.issuance_request)
           []).
  - reflexivity.
  - vm_compute. reflexivity.
  - reflexivity.
Defined.

(** Witness for X13. *)
Lemma createLogEntry_mismatch_panics_witness :
  exists reason,
    createLogEntry aux.disclosing_session aux.commitment 0%Z sample.world0
    = Panic reason.
Proof.
  apply (createLogEntry_mismatch_panics (H := sample.irma)
           aux.disclosing_session aux.commitment 0%Z sample.world0
           (Request sample.signing_entry)).
  - split; [intros l [= <-]; vm_compute; eauto | vm_compute; reflexivity].
  - left. split; [by left | discriminate].
Defined.


(** Witness for X15. *)
Lemma SessionRequest_other_locations_witness :
  heap (aux.world_after
          (SessionRequest
             (aux.created aux.issuing_session aux.commitment 5%Z aux.world2)
             aux.world2)) !! 0%nat
  = heap aux.world2 !! 0%nat.
Proof.
  eapply (SessionRequest_other_locations (H := sample.irma)
            (aux.created aux.issuing_session aux.commitment 5%Z aux.world2)
            aux.world2 _ _ _ 0%nat).
  - vm_compute. reflexivity.
  - vm_compute. eauto.
  - vm_compute. discriminate.
Defined.

(** Witness for X16. *)
Lemma SessionRequest_same_instance_witness :
  request sample.cached_entry = Some 0%nat
  /\ exists result w'',
       SessionRequest sample.cached_entry sample.cached_world
       = Return (result, sample.cached_entry, w'')
       /\ (result = (Some 0%nat, None) \/ exists e, result = (None, Some e)).
Proof.
  apply (SessionRequest_same_instance (H := sample.irma) sample.disclosing_entry
           sample.empty_world 0%nat sample.cached_entry sample.cached_world).
  vm_compute. reflexivity.
Defined.

(** Witness for X17. *)
Lemma SessionRequest_no_request_witness :
  SessionRequest (sample.loaded_entry actionRemoval (bytes_of_string "d*!abc"))
    sample.cached_world
  = Return ((None, None),
            sample.loaded_entry actionRemoval (bytes_of_string "d*!abc"),
            sample.cached_world).
Proof.
  apply (SessionRequest_no_request (H := sample.irma)).
  - reflexivity.
  - intros [Hk | [Hk | Hk]]; discriminate Hk.
Defined.

(** Witness for X18. *)
Lemma views_return_decode_error_witness :
  exists err entry' w',
    GetDisclosedCredentials sample.broken_entry tt sample.empty_world
    = Return (([], Some err), entry', w')
    /\ (Type_ sample.broken_entry = ActionIssuing ->
        GetIssuedCredentials sample.broken_entry tt sample.empty_world
        = Return (([], Some err), entry', w'))
    /\ (Type_ sample.broken_entry = ActionSigning ->
        GetSignedMessage sample.broken_entry sample.empty_world
        = Return ((None, Some err), entry', w')).
Proof.
  apply (views_return_decode_error (H := sample.irma) sample.broken_entry tt
           sample.empty_world).
  - by left.
  - intros l Hl. discriminate Hl.
  - exact sample_properties.sample_malformed_short.
Defined.

(** Witness for X19. *)
Lemma created_entry_disclosed_witness :
  exists w',
    GetDisclosedCredentials sample.signing_entry tt sample.world0
    = Return (DisclosedAttributes (Irma := sample.irma) sample.proofs tt
                (ToDisclose (PtrSignatureRequest (H := sample.irma)
                               sample.sigrequest)),
              sample.signing_entry, w').
Proof.
  apply (created_entry_disclosed (H := sample.irma) sample.signing_session
           sample.response 0%Z sample.world0 sample.signing_entry 0%nat
           (PtrSignatureRequest (H := sample.irma) sample.sigrequest) tt).
  - exact sample_properties.sample_round_trips_disjunctions.
  - reflexivity.
  - vm_compute. reflexivity.
  - vm_compute. reflexivity.
  - discriminate.
Defined.

(** Witness for X20. *)
Lemma signed_message_provenance_witness :
  exists sm entry' w',
    GetSignedMessage sample.signing_entry sample.world0
    = Return ((Some sm, None), entry', w')
    /\ sm_Signature sm = sample.proofs
    /\ sm_LDContext sm = "https://irma.app/ld/signature/v2"
    /\ sm_Timestamp sm = None.
Proof.
  apply (signed_message_provenance (H := sample.irma) sample.signing_session
           sample.proofs 0%Z sample.world0 sample.signing_entry 0%nat
           sample.sigrequest).
  - exact sample_properties.sample_round_trips_signature.
  - reflexivity.
  - reflexivity.
  - vm_compute. reflexivity.
  - vm_compute. reflexivity.
Defined.

(** Witness for X21. *)
Lemma created_entry_issued_witness :
  exists w',
    GetIssuedCredentials
      (aux.created aux.issuing_session aux.commitment 5%Z aux.world2) tt
      aux.world2
    = Return (GetCredentialInfoList (Irma := sample.irma) aux.issuance_request tt
                (Some "2.4"),
              aux.created aux.issuing_session aux.commitment 5%Z aux.world2, w').
Proof.
  apply (created_entry_issued (H := sample.irma) aux.issuing_session
           aux.commitment 5%Z aux.world2 _ 1%nat aux.issuance_request
           aux.issuance_request tt).
  - reflexivity.
  - reflexivity.
  - vm_compute. reflexivity.
  - vm_compute. reflexivity.
  - vm_compute. reflexivity.
Defined.

(** Witness for X22. *)
Lemma issuing_entry_other_request_panics_witness :
  GetIssuedCredentials
    (aux.created aux.confused_session aux.commitment 5%Z aux.world2) tt
    aux.world2
  = Panic "interface conversion: not *irma.IssuanceRequest".
Proof.
  apply (issuing_entry_other_request_panics (H := sample.irma)
           aux.confused_session aux.commitment 5%Z aux.world2 _ 0%nat
           (PtrSignatureRequest (H := sample.irma) sample.sigrequest) tt).
  - reflexivity.
  - reflexivity.
  - vm_compute. reflexivity.
  - discriminate.
  - vm_compute. reflexivity.
  - vm_compute. reflexivity.
Defined.

(** Witness for X23. *)
Lemma signing_entry_without_disclosure_panics_witness :
  GetSignedMessage aux.signing_entry_without_disclosure sample.empty_world
  = Panic nil_dereference.
Proof.
  apply (signing_entry_without_disclosure_panics (H := sample.irma)).
  - reflexivity.
  - reflexivity.
  - reflexivity.
  - vm_compute. reflexivity.
Defined.

(** Witness for X24. *)
Lemma stored_entry_SessionRequest_witness :
  exists l' entry' w' v',
    SessionRequest (set_request sample.signing_entry None) sample.world0
    = Return ((Some l', None), entry', w')
    /\ heap w' !! l' = Some v'
    /\ ToDisclose v'
       = ToDisclose (PtrSignatureRequest (H := sample.irma) sample.sigrequest).
Proof.
  apply (stored_entry_SessionRequest (H := sample.irma) sample.signing_session
           sample.response 0%Z sample.world0 sample.signing_entry 0%nat
           (PtrSignatureRequest (H := sample.irma) sample.sigrequest)
           (PtrSignatureRequest (H := sample.irma) sample.r_zero)).
  - exact sample_properties.sample_round_trips_from_zero.
  - reflexivity.
  - vm_compute. reflexivity.
  - reflexivity.
  - exact I.
  - vm_compute. reflexivity.
Defined.
